(** * instaseis/source.py: sources and receivers of the AxiSEM DB interface

    A shallow embedding of [instaseis/source.py] (classes [SourceOrReceiver],
    [Source], [ForceSource] and [Receiver]) and the properties of its
    moment tensor, source time function, comparison and parsing code.

    Numbers.  The module is embedded twice.  In the first embedding Python
    floats and NumPy [float64] arrays are real numbers [R] and lists of
    reals; it carries the properties that do not depend on rounding: which
    attributes a method writes, what it raises, how objects compare, what
    the parsers return.  In the second, module [f64], the source time
    function code runs on IEEE binary64 floats, every operation rounded as
    NumPy rounds it; it carries the properties of the computed samples.

    Objects.  A NumPy array is an object: it has an identity besides its
    contents, and Python's comparison of containers looks at the identity
    first.  An array is therefore a pair of an identity and its data, and the
    code that creates arrays runs in a small state and exception monad whose
    state is the next unused identity. *)

From Stdlib Require Import String Reals Lra List Arith Lia Bool.
From Stdlib Require Import Permutation Floats ZArith Uint63.
Import ListNotations.
Open Scope R_scope.

(** ** Python run time: exceptions and object identities *)

Inductive exn : Type :=
| TypeError
| ValueError.

Inductive result (A : Type) : Type :=
| Ok (a : A)
| Raise (e : exn).
Arguments Ok {A} a.
Arguments Raise {A} e.

(** The allocator state: the next object identity that is not in use. *)
Definition heap : Type := nat.

Definition Py (A : Type) : Type := heap -> result A * heap.

Definition ret {A : Type} (a : A) : Py A := fun h => (Ok a, h).

Definition raise {A : Type} (e : exn) : Py A := fun h => (Raise e, h).

Definition bind {A B : Type} (m : Py A) (k : A -> Py B) : Py B :=
  fun h =>
    match m h with
    | (Ok a, h') => k a h'
    | (Raise e, h') => (Raise e, h')
    end.

Notation "x <- m ;; k" := (bind m (fun x => k))
  (at level 61, m at next level, right associativity).

(** The object [self] after a method call: the returned object when the call
    returns, and [self] as it was when the call raises (the methods below
    assign to [self] only after everything that can raise has run). *)
Definition self_after {A : Type} (call : Py A) (self : A) (h : heap) : A :=
  match fst (call h) with
  | Ok self' => self'
  | Raise _ => self
  end.

(** [None] where Python code reads [len(None)] or [None * n]. *)
Definition not_None {A : Type} (v : option A) : Py A :=
  match v with
  | Some a => ret a
  | None => raise TypeError
  end.

(** ** The NumPy functions the module calls

    NumPy is a library outside the repository; the definitions follow its
    documented behaviour on one-dimensional float arrays.  They are the
    functions without rounding, over the reals; [linspace], [trapz] and
    [interp] on binary64 floats are in module [f64] below. *)

Record ndarray : Type := mk_ndarray {
  arr_id : nat;
  arr_data : list R
}.

Module np.

(** [np.array(values)]: a new array object holding a copy of [values]. *)
Definition array (values : list R) : Py ndarray :=
  fun h => (Ok (mk_ndarray h values), S h).

(** [a /= c]: division in place, the object stays the same. *)
Definition idiv (a : ndarray) (c : R) : ndarray :=
  mk_ndarray (arr_id a) (map (fun v => v / c) (arr_data a)).

Definition deg2rad (x : R) : R := x * (PI / 180).

(** [np.linspace(start, stop, num, endpoint=False)]:
    [step = (stop - start) / num] and [arange(0, num) * step + start];
    no sample for [num = 0]. *)
Definition linspace (start stop : R) (num : nat) : list R :=
  let step := (stop - start) / INR num in
  map (fun i => INR i * step + start) (seq 0 num).

(** [np.trapz(y, dx=dx)]: the sum of [dx * (y[1:] + y[:-1]) / 2.0]. *)
Definition trapz (y : list R) (dx : R) : R :=
  fold_right Rplus 0
    (map (fun p => dx * (fst p + snd p) / 2) (combine (tl y) (removelast y))).

(** The interpolant right of the sample [(x0, y0)], the remaining sample
    points being [xp], [fp]: the segment whose right end is the first point
    beyond [x], and [fp[-1]] when there is none. *)
Fixpoint interp_seg (x x0 y0 : R) (xp fp : list R) : R :=
  match xp, fp with
  | x1 :: xp', y1 :: fp' =>
      if Rlt_dec x x1
      then (y1 - y0) / (x1 - x0) * (x - x0) + y0
      else interp_seg x x1 y1 xp' fp'
  | _, _ => y0
  end.

(** The value of the interpolant at one point: [fp[0]] left of [xp[0]]. *)
Definition interp_at (xp fp : list R) (x : R) : R :=
  match xp, fp with
  | x0 :: xp', y0 :: fp' =>
      if Rlt_dec x x0 then y0 else interp_seg x x0 y0 xp' fp'
  | _, _ => 0
  end.

(** [np.interp(x, xp, fp)] (the module imports it as [scipy.interp]):
    piecewise linear through the points [(xp, fp)], [xp] increasing,
    constant outside of them; [ValueError] when there is no sample point
    or when [xp] and [fp] differ in length.  The result is a new array. *)
Definition interp (x xp fp : list R) : Py ndarray :=
  if (length xp =? 0)%nat then raise ValueError
  else if negb (length fp =? length xp)%nat then raise ValueError
  else array (map (interp_at xp fp) x).

(** The shape of [a == b] for arrays of [n] and [m] elements: the
    elementwise comparison broadcasts a shape of length 1, and there is no
    elementwise comparison when the shapes do not fit. *)
Definition eq_shape (n m : nat) : option nat :=
  if (n =? m)%nat then Some n
  else if (n =? 1)%nat then Some m
  else if (m =? 1)%nat then Some n
  else None.

Definition float_eqb (u v : R) : bool :=
  if Req_dec_T u v then true else false.

(** [bool(a == b)] for two arrays, as [PyObject_RichCompareBool] computes
    it when a container compares its items: identical objects are equal
    without further ado; otherwise [a == b] is the array of the
    elementwise comparisons, whose truth value is [False] when it is
    empty, its element when it has one, and a [ValueError] ("the truth
    value of an array with more than one element is ambiguous") when it
    has more.  Arrays whose shapes do not fit compare as [False]. *)
Definition bool_of_eq (a b : ndarray) : result bool :=
  if (arr_id a =? arr_id b)%nat then Ok true
  else
    match eq_shape (length (arr_data a)) (length (arr_data b)) with
    | None => Ok false
    | Some 0%nat => Ok false
    | Some 1%nat => Ok (float_eqb (nth 0 (arr_data a) 0) (nth 0 (arr_data b) 0))
    | Some _ => Raise ValueError
    end.

End np.

(** ** class SourceOrReceiver *)

Module SourceOrReceiver.

Record t : Type := mk {
  latitude : R;
  longitude : R;
  depth_in_m : option R
}.

Definition __init__ (latitude longitude : R) (depth_in_m : option R) : t :=
  mk latitude longitude depth_in_m.

End SourceOrReceiver.

(** ** class Source(SourceOrReceiver) *)

Module Source.

Record t : Type := mk {
  base : SourceOrReceiver.t;
  m_rr : R;
  m_tt : R;
  m_pp : R;
  m_rt : R;
  m_rp : R;
  m_tp : R;
  time_shift : option R;
  sliprate : option ndarray;
  dt : option R
}.

(** [self.sliprate = np.array(sliprate) if sliprate is not None else None] *)
Definition __init__ (latitude longitude : R) (depth_in_m : option R)
    (m_rr m_tt m_pp m_rt m_rp m_tp : R) (time_shift : option R)
    (sliprate : option (list R)) (dt : option R) : Py t :=
  arr <- match sliprate with
         | Some values => a <- np.array values ;; ret (Some a)
         | None => ret None
         end ;;
  ret (mk (SourceOrReceiver.__init__ latitude longitude depth_in_m)
          m_rr m_tt m_pp m_rt m_rp m_tp time_shift arr dt).

Definition from_strike_dip_rake (latitude longitude : R)
    (depth_in_m : option R) (strike dip rake M0 : R)
    (time_shift : option R) (sliprate : option (list R)) (dt : option R)
    : Py t :=
  let phi := np.deg2rad strike in
  let delta := np.deg2rad dip in
  let lambd := np.deg2rad rake in
  let m_tt := (- sin delta * cos lambd * sin (2 * phi)
               - sin (2 * delta) * sin phi ^ 2 * sin lambd) * M0 in
  let m_pp := (sin delta * cos lambd * sin (2 * phi)
               - sin (2 * delta) * cos phi ^ 2 * sin lambd) * M0 in
  let m_rr := (sin (2 * delta) * sin lambd) * M0 in
  let m_rp := (- cos phi * sin lambd * cos (2 * delta)
               + cos delta * cos lambd * sin phi) * M0 in
  let m_rt := (- sin lambd * sin phi * cos (2 * delta)
               - cos delta * cos lambd * cos phi) * M0 in
  let m_tp := (- sin delta * cos lambd * cos (2 * phi)
               - sin (2 * delta) * sin (2 * phi) * sin lambd / 2) * M0 in
  __init__ latitude longitude depth_in_m m_rr m_tt m_pp m_rt m_rp m_tp
           time_shift sliprate dt.

Definition tensor (self : t) : list R :=
  [m_rr self; m_tt self; m_pp self; m_rt self; m_rp self; m_tp self].

Definition tensor_voigt (self : t) : list R :=
  [m_tt self; m_pp self; m_rr self; m_rp self; m_rt self; m_tp self].

(** The defaults of [set_sliprate]'s optional arguments. *)
Definition time_shift_default : option R := None.
Definition normalize_default : bool := true.

Definition set_sliprate (self : t) (sliprate : list R) (dt : R)
    (time_shift : option R) (normalize : bool) : Py t :=
  a <- np.array sliprate ;;
  let a := if normalize then np.idiv a (np.trapz sliprate dt) else a in
  ret (mk (base self) (m_rr self) (m_tt self) (m_pp self) (m_rt self)
          (m_rp self) (m_tp self) time_shift (Some a) (Some dt)).

(** [len(self.sliprate)] and [self.dt * len(...)] raise [TypeError] when
    the attribute is [None]; [interp] raises [ValueError] on an empty
    sliprate.  The two assignments come last. *)
Definition resample_sliprate (self : t) (dt : R) (nsamp : nat) : Py t :=
  let t_new := np.linspace 0 (INR nsamp * dt) nsamp in
  old <- not_None (sliprate self) ;;
  dt_old <- not_None (Source.dt self) ;;
  let t_old := np.linspace 0 (dt_old * INR (length (arr_data old)))
                           (length (arr_data old)) in
  new <- np.interp t_new t_old (arr_data old) ;;
  ret (mk (base self) (m_rr self) (m_tt self) (m_pp self) (m_rt self)
          (m_rp self) (m_tp self) (time_shift self) (Some new) (Some dt)).

End Source.

(** ** class ForceSource(SourceOrReceiver) *)

Module ForceSource.

Record t : Type := mk {
  base : SourceOrReceiver.t;
  f_r : R;
  f_t : R;
  f_p : R
}.

Definition __init__ (latitude longitude : R) (depth_in_m : option R)
    (f_r f_t f_p : R) : t :=
  mk (SourceOrReceiver.__init__ latitude longitude depth_in_m) f_r f_t f_p.

Definition force_tpr (self : t) : list R := [f_t self; f_p self; f_r self].

Definition force_rtp (self : t) : list R := [f_t self; f_p self; f_r self].

End ForceSource.

(** ** class Receiver(SourceOrReceiver) *)

(** [v or ""] for a string or [None]: [None] and the empty string are
    false. *)
Definition or_empty (v : option string) : string :=
  match v with
  | None => EmptyString
  | Some s => if String.eqb s EmptyString then EmptyString else s
  end.

Module Receiver.

Record t : Type := mk {
  base : SourceOrReceiver.t;
  network : string;
  station : string
}.

Definition __init__ (latitude longitude : R) (network station : option string)
    (depth_in_m : option R) : t :=
  mk (SourceOrReceiver.__init__ latitude longitude depth_in_m)
     (or_empty network) (or_empty station).

End Receiver.

(** ** SourceOrReceiver.__eq__

    [__eq__] compares the types of the two objects and then their
    [__dict__]: the attributes by name, the values with Python's [==]. *)

Inductive instance : Type :=
| a_Source (s : Source.t)
| a_ForceSource (f : ForceSource.t)
| a_Receiver (r : Receiver.t).

Inductive class : Type := cls_Source | cls_ForceSource | cls_Receiver.

Definition type (o : instance) : class :=
  match o with
  | a_Source _ => cls_Source
  | a_ForceSource _ => cls_ForceSource
  | a_Receiver _ => cls_Receiver
  end.

Definition class_eqb (c d : class) : bool :=
  match c, d with
  | cls_Source, cls_Source
  | cls_ForceSource, cls_ForceSource
  | cls_Receiver, cls_Receiver => true
  | _, _ => false
  end.

(** The values an attribute of the three classes holds. *)
Inductive pyval : Type :=
| VNone
| VFloat (r : R)
| VStr (s : string)
| VArray (a : ndarray).

Definition of_option {A : Type} (f : A -> pyval) (v : option A) : pyval :=
  match v with
  | Some a => f a
  | None => VNone
  end.

Definition dict : Type := list (string * pyval).

Definition base_dict (p : SourceOrReceiver.t) : dict :=
  [ ("latitude"%string, VFloat (SourceOrReceiver.latitude p));
    ("longitude"%string, VFloat (SourceOrReceiver.longitude p));
    ("depth_in_m"%string, of_option VFloat (SourceOrReceiver.depth_in_m p)) ].

(** [self.__dict__], the attributes in the order [__init__] assigns them. *)
Definition __dict__ (o : instance) : dict :=
  match o with
  | a_Source s =>
      base_dict (Source.base s) ++
      [ ("m_rr"%string, VFloat (Source.m_rr s));
        ("m_tt"%string, VFloat (Source.m_tt s));
        ("m_pp"%string, VFloat (Source.m_pp s));
        ("m_rt"%string, VFloat (Source.m_rt s));
        ("m_rp"%string, VFloat (Source.m_rp s));
        ("m_tp"%string, VFloat (Source.m_tp s));
        ("time_shift"%string, of_option VFloat (Source.time_shift s));
        ("sliprate"%string, of_option VArray (Source.sliprate s));
        ("dt"%string, of_option VFloat (Source.dt s)) ]
  | a_ForceSource f =>
      base_dict (ForceSource.base f) ++
      [ ("f_r"%string, VFloat (ForceSource.f_r f));
        ("f_t"%string, VFloat (ForceSource.f_t f));
        ("f_p"%string, VFloat (ForceSource.f_p f)) ]
  | a_Receiver r =>
      base_dict (Receiver.base r) ++
      [ ("network"%string, VStr (Receiver.network r));
        ("station"%string, VStr (Receiver.station r)) ]
  end.

(** [PyObject_RichCompareBool(v, w, Py_EQ)] on attribute values: numbers and
    strings by value, [None] equal to [None] only, two arrays as
    [np.bool_of_eq] says, an array and [None] unequal. *)
Definition RichCompareBool (v w : pyval) : result bool :=
  match v, w with
  | VNone, VNone => Ok true
  | VFloat a, VFloat b => Ok (np.float_eqb a b)
  | VStr a, VStr b => Ok (String.eqb a b)
  | VArray a, VArray b => np.bool_of_eq a b
  | _, _ => Ok false
  end.

Fixpoint dict_get (key : string) (d : dict) : option pyval :=
  match d with
  | [] => None
  | (k, v) :: d' => if String.eqb key k then Some v else dict_get key d'
  end.

(** The loop of [dict_equal]: every item of [a] is looked up in [b] and
    compared; the first item that is missing or unequal, or whose comparison
    raises, decides. *)
Fixpoint dict_equal_items (a b : dict) : result bool :=
  match a with
  | [] => Ok true
  | (key, aval) :: a' =>
      match dict_get key b with
      | None => Ok false
      | Some bval =>
          match RichCompareBool aval bval with
          | Ok true => dict_equal_items a' b
          | Ok false => Ok false
          | Raise e => Raise e
          end
      end
  end.

Definition dict_equal (a b : dict) : result bool :=
  if (length a =? length b)%nat then dict_equal_items a b else Ok false.

Definition __eq__ (self other : instance) : result bool :=
  if negb (class_eqb (type self) (type other)) then Ok false
  else dict_equal (__dict__ self) (__dict__ other).

Definition __ne__ (self other : instance) : result bool :=
  match __eq__ self other with
  | Ok b => Ok (negb b)
  | Raise e => Raise e
  end.

(** ** Specification of the resampling, and example objects *)

(** The old and the new time axis of [resample_sliprate]:
    [np.linspace(0, dt * n, n, endpoint=False)]. *)
Definition time_axis (dt : R) (n : nat) : list R :=
  np.linspace 0 (dt * INR n) n.

(** Sample points in increasing order, what [np.interp] asks of [xp]. *)
Definition increasing (xs : list R) : Prop :=
  forall i, (S i < length xs)%nat -> nth i xs 0 < nth (S i) xs 0.

(** A source without source time function, at latitude and longitude 0. *)
Definition plain_source : Source.t :=
  Source.mk (SourceOrReceiver.mk 0 0 None) 0 0 0 0 0 0 None None None.

(** The same source one degree further north. *)
Definition northern_source : Source.t :=
  Source.mk (SourceOrReceiver.mk 1 0 None) 0 0 0 0 0 0 None None None.

(** The sliprate [0, 1, 0] at [dt = 1], held by an array of identity 0. *)
Definition triangle_source : Source.t :=
  Source.mk (SourceOrReceiver.mk 0 0 None) 0 0 0 0 0 0 None
            (Some (mk_ndarray 0 [0; 1; 0])) (Some 1).

(** ** The source time function in IEEE binary64

    [set_sliprate] and [resample_sliprate] once more, on Rocq's primitive
    binary64 floats: every operation rounds as NumPy's [float64] does, and
    the definitions evaluate.  [np.linspace], [np.trapz], [np.sum] and
    [np.interp] follow NumPy's algorithms on one contiguous [float64]
    array. *)

Module f64.

Local Open Scope float_scope.

(** The integer [n] as a float, as in [int * float]. *)
Definition of_nat (n : nat) : float :=
  PrimFloat.of_uint63 (Uint63.of_Z (Z.of_nat n)).

Record ndarray : Type := mk_ndarray {
  arr_id : nat;
  arr_data : list float
}.

(** [np.array(values)] *)
Definition array (values : list float) : Py ndarray :=
  fun h => (Ok (mk_ndarray h values), S h).

(** [a /= c]; a division by zero gives infinities and NaN, no exception. *)
Definition idiv (a : ndarray) (c : float) : ndarray :=
  mk_ndarray (arr_id a) (map (fun v => v / c) (arr_data a)).

(** [np.linspace(start, stop, num, endpoint=False)]:
    [step = (stop - start) / num] and [arange(0, num) * step + start],
    or [arange(0, num) / num * (stop - start) + start] when the step
    is zero. *)
Definition linspace (start stop : float) (num : nat) : list float :=
  let delta := stop - start in
  let step := delta / of_nat num in
  map (fun i => (if PrimFloat.eqb step 0
                 then of_nat i / of_nat num * delta
                 else of_nat i * step) + start)
      (seq 0 num).

(** [res += a[i]] for the items of [a] in turn. *)
Definition add_all (res : float) (a : list float) : float :=
  fold_left PrimFloat.add a res.

(** [r[j] += a[i + j]] for [blocks] blocks of eight items of [a]; returns
    the accumulators and the items that are left. *)
Fixpoint accumulate (blocks : nat) (r a : list float)
    : list float * list float :=
  match blocks with
  | O => (r, a)
  | S blocks' =>
      accumulate blocks'
                 (map (fun p => fst p + snd p) (combine r (firstn 8 a)))
                 (skipn 8 a)
  end.

(** The sum of 8 to 128 items with eight accumulators. *)
Definition block_sum (a : list float) : float :=
  let (r, rest) :=
    accumulate (length a / 8 - 1) (firstn 8 a) (skipn 8 a) in
  let r := fun j => nth j r 0 in
  add_all (((r 0%nat + r 1%nat) + (r 2%nat + r 3%nat))
           + ((r 4%nat + r 5%nat) + (r 6%nat + r 7%nat)))
          rest.

(** NumPy's [pairwise_sum]: fewer than 8 items are added from the left,
    starting from -0.0; up to 128 items go through eight accumulators; more
    are split in two halves, the first a multiple of eight long.  The
    recursion is on [fuel]; the length of [a] is enough of it. *)
Fixpoint pairwise_sum (fuel : nat) (a : list float) : float :=
  let n := length a in
  if (n <? 8)%nat then add_all neg_zero a
  else if (n <=? 128)%nat then block_sum a
  else
    match fuel with
    | O => block_sum a
    | S fuel' =>
        let n2 := (n / 2 - (n / 2) mod 8)%nat in
        pairwise_sum fuel' (firstn n2 a) + pairwise_sum fuel' (skipn n2 a)
    end.

(** [a.sum()], that is [np.add.reduce(a)]: 0.0 for an empty array, else the
    pairwise sum added to the initial value -0.0.  (Where NumPy starts from
    0.0 instead, only the sign of a sum that is zero differs.) *)
Definition sum (terms : list float) : float :=
  match terms with
  | [] => 0
  | _ :: _ => neg_zero + pairwise_sum (length terms) terms
  end.

(** [np.trapz(y, dx=dx)]: [(dx * (y[1:] + y[:-1]) / 2.0).sum()]. *)
Definition trapz (y : list float) (dx : float) : float :=
  sum (map (fun p => dx * (fst p + snd p) / 2) (combine (tl y) (removelast y))).

(** The value [np.interp] gives at [x] on the segment from [(x0, y0)] to
    [(x1, y1)]: [y0] at [x0] itself, else [slope * (x - x0) + y0], and when
    that is NaN the same from the other end. *)
Definition segment (x x0 y0 x1 y1 : float) : float :=
  if PrimFloat.eqb x0 x then y0
  else
    let slope := (y1 - y0) / (x1 - x0) in
    let v := slope * (x - x0) + y0 in
    if is_nan v then
      let v' := slope * (x - x1) + y1 in
      if is_nan v' && PrimFloat.eqb y0 y1 then y0 else v'
    else v.

(** The search for the segment of [x], for [x] not below [x0].  NumPy
    searches by bisection, which finds the same segment when [xp] is
    increasing, as [np.interp] asks. *)
Fixpoint interp_seg (x x0 y0 : float) (xp fp : list float) : float :=
  match xp, fp with
  | x1 :: xp', y1 :: fp' =>
      if PrimFloat.ltb x x1 then segment x x0 y0 x1 y1
      else interp_seg x x1 y1 xp' fp'
  | _, _ => y0
  end.

(** One value of [np.interp(x, xp, fp)]: [fp[0]] everywhere for a single
    sample point; else a NaN [x] as it is, [fp[0]] below [xp[0]], [fp[-1]]
    from [xp[-1]] on, and the value on its segment between. *)
Definition interp_at (xp fp : list float) (x : float) : float :=
  match xp, fp with
  | x0 :: xp', y0 :: fp' =>
      match xp' with
      | [] => y0
      | _ :: _ =>
          if is_nan x then x
          else if PrimFloat.ltb x x0 then y0
          else interp_seg x x0 y0 xp' fp'
      end
  | _, _ => 0
  end.

(** [np.interp(x, xp, fp)]; [ValueError] for no sample point and for [fp]
    not as long as [xp]. *)
Definition interp (x xp fp : list float) : Py ndarray :=
  if (length xp =? 0)%nat then raise ValueError
  else if negb (length fp =? length xp)%nat then raise ValueError
  else array (map (interp_at xp fp) x).

(** Sample times in increasing order. *)
Definition increasing (xs : list float) : Prop :=
  forall j, (S j < length xs)%nat ->
            PrimFloat.ltb (nth j xs 0) (nth (S j) xs 0) = true.

(** [v] is the linear interpolation at [t] between [(x0, y0)] and
    [(x1, y1)], in rounded operations: [y0] at [x0], else
    [(y1 - y0) / (x1 - x0) * (t - x0) + y0] where that is a number. *)
Definition on_segment (x0 y0 x1 y1 t v : float) : Prop :=
  (PrimFloat.eqb x0 t = true -> v = y0)
  /\ (PrimFloat.eqb x0 t = false ->
      is_nan ((y1 - y0) / (x1 - x0) * (t - x0) + y0) = false ->
      v = (y1 - y0) / (x1 - x0) * (t - x0) + y0).

(** Linear interpolation with flat continuation: [v] is the value at the
    time [t] of the series with sample times [xp] and samples [fp] when it
    is the first sample for [t] below the first time, the last sample for
    [t] below no time, and the linear interpolation on the segment [j], the
    first whose right end is above [t]. *)
Definition interpolated (xp fp : list float) (t v : float) : Prop :=
  let n := length xp in
  (PrimFloat.ltb t (nth 0 xp 0) = true -> v = nth 0 fp 0)
  /\ ((forall k, (k < n)%nat -> PrimFloat.ltb t (nth k xp 0) = false) ->
      v = nth (n - 1) fp 0)
  /\ (forall j, (S j < n)%nat ->
                (forall k, (k <= j)%nat ->
                           PrimFloat.ltb t (nth k xp 0) = false) ->
                PrimFloat.ltb t (nth (S j) xp 0) = true ->
                on_segment (nth j xp 0) (nth j fp 0)
                           (nth (S j) xp 0) (nth (S j) fp 0) t v).

Module Source.

Record t : Type := mk {
  latitude : float;
  longitude : float;
  depth_in_m : option float;
  m_rr : float;
  m_tt : float;
  m_pp : float;
  m_rt : float;
  m_rp : float;
  m_tp : float;
  time_shift : option float;
  sliprate : option ndarray;
  dt : option float
}.

Definition set_sliprate (self : t) (sliprate : list float) (dt : float)
    (time_shift : option float) (normalize : bool) : Py t :=
  a <- array sliprate ;;
  let a := if normalize then idiv a (trapz sliprate dt) else a in
  ret (mk (latitude self) (longitude self) (depth_in_m self)
          (m_rr self) (m_tt self) (m_pp self) (m_rt self)
          (m_rp self) (m_tp self) time_shift (Some a) (Some dt)).

Definition resample_sliprate (self : t) (dt : float) (nsamp : nat) : Py t :=
  let t_new := linspace 0 (of_nat nsamp * dt) nsamp in
  old <- not_None (sliprate self) ;;
  dt_old <- not_None (Source.dt self) ;;
  let t_old := linspace 0 (dt_old * of_nat (length (arr_data old)))
                        (length (arr_data old)) in
  new <- interp t_new t_old (arr_data old) ;;
  ret (mk (latitude self) (longitude self) (depth_in_m self)
          (m_rr self) (m_tt self) (m_pp self) (m_rt self)
          (m_rp self) (m_tp self) (time_shift self) (Some new) (Some dt)).

End Source.

(** A source without source time function. *)
Definition plain_source : Source.t :=
  Source.mk 0 0 None 0 0 0 0 0 0 None None None.

(** The sliprate [0, 1, 0] at the sampling interval [dt]. *)
Definition triangle_source (dt : float) : Source.t :=
  Source.mk 0 0 None 0 0 0 0 0 0 None (Some (mk_ndarray 0 [0; 1; 0])) (Some dt).

(** The floats of the literals 0.1, 0.2 and 0.3. *)
Definition tenth : float := 0x1.999999999999ap-4.

End f64.

(** ** Exceptions of the parsing code *)

(** The built-in exceptions of [exn], [IndexError], and the module's own
    [ReceiverParseError] with its message. *)
Inductive exception : Type :=
| Builtin (e : exn)
| IndexError
| ReceiverParseError (message : string).

Inductive outcome (A : Type) : Type :=
| Return (a : A)
| Fail (e : exception).
Arguments Return {A} a.
Arguments Fail {A} e.

Definition outcome_bind {A B : Type} (m : outcome A) (k : A -> outcome B)
    : outcome B :=
  match m with
  | Return a => k a
  | Fail e => Fail e
  end.

Notation "x <~ m ;; k" := (outcome_bind m (fun x => k))
  (at level 61, m at next level, right associativity).

(** ** The decorator [_purge_duplicates] *)

(** [item in new_list]: the list compares [item] with its elements from the
    left, [PyObject_RichCompareBool(item, el, Py_EQ)], and stops at the first
    one that is equal or whose comparison raises.  The elements are objects
    of the three classes, [inj] says of which; an object compared with
    itself is equal by [__eq__] too, so that the identity test of the
    comparison adds nothing. *)
Fixpoint contains {A : Type} (inj : A -> instance) (new_list : list A)
    (item : A) : result bool :=
  match new_list with
  | [] => Ok false
  | el :: rest =>
      match __eq__ (inj item) (inj el) with
      | Ok true => Ok true
      | Ok false => contains inj rest item
      | Raise e => Raise e
      end
  end.

(** The loop of the wrapper over the returned list, [new_list] being the
    items kept so far. *)
Fixpoint purge {A : Type} (inj : A -> instance) (ret_val new_list : list A)
    : outcome (list A) :=
  match ret_val with
  | [] => Return new_list
  | item :: rest =>
      match contains inj new_list item with
      | Ok true => purge inj rest new_list
      | Ok false => purge inj rest (new_list ++ [item])
      | Raise e => Fail (Builtin e)
      end
  end.

(** [_purge_duplicates(f)]: the wrapper calls [f] and purges what it
    returns; an exception of [f] passes through. *)
Definition _purge_duplicates {A B : Type} (inj : A -> instance)
    (f : B -> outcome (list A)) : B -> outcome (list A) :=
  fun args =>
    match f args with
    | Return ret_val => purge inj ret_val []
    | Fail e => Fail e
    end.

(** ** Receiver.parse on ObsPy objects

    The ObsPy objects are records of the attributes [Receiver.parse] reads.
    File names, URLs and SEED parsers, which [Receiver.parse] hands to
    ObsPy's readers, are not part of the model. *)

Module obspy.

Record Channel : Type := mk_Channel {
  channel_latitude : R;
  channel_longitude : R
}.

Record Station : Type := mk_Station {
  station_code : string;
  station_latitude : R;
  station_longitude : R;
  channels : list Channel
}.

Record Network : Type := mk_Network {
  network_code : string;
  stations : list Station
}.

(** [tr.stats.sac], with the station coordinates [stla], [stlo]. *)
Record SAC : Type := mk_SAC {
  stla : R;
  stlo : R
}.

(** A trace: [tr.id], [tr.stats.network], [tr.stats.station] and
    [tr.stats.sac] when [tr.stats] has that attribute. *)
Record Trace : Type := mk_Trace {
  id : string;
  stats_network : string;
  stats_station : string;
  stats_sac : option SAC
}.

End obspy.

Definition coordinates_eq_dec (a b : R * R) : {a = b} + {a <> b}.
Proof.
  destruct a as [a1 a2], b as [b1 b2].
  destruct (Req_dec_T a1 b1) as [E1|N1]; [|right; congruence].
  destruct (Req_dec_T a2 b2) as [E2|N2]; [|right; congruence].
  left; congruence.
Defined.

(** [set((_i.latitude, _i.longitude) for _i in channels)], its elements in
    some order. *)
Definition coordinates_set (channels : list obspy.Channel) : list (R * R) :=
  nodup coordinates_eq_dec
    (map (fun c => (obspy.channel_latitude c, obspy.channel_longitude c))
         channels).

Definition not_identical_message (network_code station_code : string) : string :=
  ("The coordinates of the channels of station '" ++ network_code ++ "."
   ++ station_code ++ "' are not identical.")%string.

(** The branch of [Receiver.parse] for an [obspy.station.Station]. *)
Definition parse_Station_body (args : obspy.Station * option string)
    : outcome (list Receiver.t) :=
  let (filename_or_obj, network_code) := args in
  match network_code with
  | None => Fail (ReceiverParseError "network_code must be given.")
  | Some network_code =>
      match obspy.channels filename_or_obj with
      | [] =>
          Return [Receiver.__init__ (obspy.station_latitude filename_or_obj)
                                    (obspy.station_longitude filename_or_obj)
                                    (Some network_code)
                                    (Some (obspy.station_code filename_or_obj))
                                    None]
      | _ :: _ =>
          match coordinates_set (obspy.channels filename_or_obj) with
          | [coords] =>
              Return [Receiver.__init__ (fst coords) (snd coords)
                                        (Some network_code)
                                        (Some (obspy.station_code filename_or_obj))
                                        None]
          | _ =>
              Fail (ReceiverParseError
                      (not_identical_message
                         network_code (obspy.station_code filename_or_obj)))
          end
      end
  end.

Definition parse_Station : obspy.Station * option string
                           -> outcome (list Receiver.t) :=
  _purge_duplicates a_Receiver parse_Station_body.

(** [for x in xs: receivers.extend(Receiver.parse(x))] *)
Fixpoint extend_each {A : Type} (parse : A -> outcome (list Receiver.t))
    (xs : list A) (receivers : list Receiver.t) : outcome (list Receiver.t) :=
  match xs with
  | [] => Return receivers
  | x :: xs' =>
      r <~ parse x ;;
      extend_each parse xs' (receivers ++ r)
  end.

(** The branch for an [obspy.station.Network]. *)
Definition parse_Network_body (filename_or_obj : obspy.Network)
    : outcome (list Receiver.t) :=
  extend_each
    (fun station =>
       parse_Station (station, Some (obspy.network_code filename_or_obj)))
    (obspy.stations filename_or_obj) [].

Definition parse_Network : obspy.Network -> outcome (list Receiver.t) :=
  _purge_duplicates a_Receiver parse_Network_body.

(** The branch for an [obspy.station.Inventory], a sequence of networks. *)
Definition parse_Inventory_body (filename_or_obj : list obspy.Network)
    : outcome (list Receiver.t) :=
  extend_each parse_Network filename_or_obj [].

Definition parse_Inventory : list obspy.Network -> outcome (list Receiver.t) :=
  _purge_duplicates a_Receiver parse_Inventory_body.

(** The branch for an [obspy.Trace]: [-12345.0] is SAC's "undefined". *)
Definition parse_Trace_body (filename_or_obj : obspy.Trace)
    : outcome (list Receiver.t) :=
  match obspy.stats_sac filename_or_obj with
  | None => Fail (ReceiverParseError "ObsPy Trace must have an sac attribute.")
  | Some sac =>
      if np.float_eqb (-12345) (obspy.stla sac)
         || np.float_eqb (-12345) (obspy.stlo sac)
      then Fail (ReceiverParseError
                   ("SAC file does not contain coordinates for channel '"
                    ++ obspy.id filename_or_obj ++ "'")%string)
      else Return [Receiver.__init__ (obspy.stla sac) (obspy.stlo sac)
                                     (Some (obspy.stats_network filename_or_obj))
                                     (Some (obspy.stats_station filename_or_obj))
                                     None]
  end.

Definition parse_Trace : obspy.Trace -> outcome (list Receiver.t) :=
  _purge_duplicates a_Receiver parse_Trace_body.

(** The branch for an [obspy.Stream], a sequence of traces. *)
Definition parse_Stream_body (filename_or_obj : list obspy.Trace)
    : outcome (list Receiver.t) :=
  extend_each parse_Trace filename_or_obj [].

Definition parse_Stream : list obspy.Trace -> outcome (list Receiver.t) :=
  _purge_duplicates a_Receiver parse_Stream_body.

Inductive obspy_object : Type :=
| an_Inventory (networks : list obspy.Network)
| a_Network (network : obspy.Network)
| a_Station (station : obspy.Station)
| a_Stream (traces : list obspy.Trace)
| a_Trace (trace : obspy.Trace).

(** [Receiver.parse(filename_or_obj, network_code=None)] on these objects;
    the recursive calls go through the decorated function. *)
Definition Receiver_parse (filename_or_obj : obspy_object)
    (network_code : option string) : outcome (list Receiver.t) :=
  match filename_or_obj with
  | an_Inventory networks => parse_Inventory networks
  | a_Network network => parse_Network network
  | a_Station station => parse_Station (station, network_code)
  | a_Stream traces => parse_Stream traces
  | a_Trace trace => parse_Trace trace
  end.

(** ** Text files *)

(** The characters [str.split()] splits at. *)
Definition isspace (c : Ascii.ascii) : bool :=
  match Ascii.nat_of_ascii c with
  | 9%nat | 10%nat | 11%nat | 12%nat | 13%nat | 32%nat => true
  | _ => false
  end.

(** [split_from s token]: the words of [s], [token] being the part of the
    first one read so far. *)
Fixpoint split_from (s token : string) : list string :=
  match s with
  | EmptyString =>
      match token with
      | EmptyString => []
      | _ => [token]
      end
  | String c s' =>
      if isspace c
      then match token with
           | EmptyString => split_from s' EmptyString
           | _ => token :: split_from s' EmptyString
           end
      else split_from s' (token ++ String c EmptyString)%string
  end.

(** [s.split()]: the words between runs of whitespace. *)
Definition split (s : string) : list string := split_from s EmptyString.

(** [f.readline()] on a file given by its remaining lines: the empty string
    at the end of the file. *)
Definition readline (f : list string) : string * list string :=
  match f with
  | [] => (EmptyString, [])
  | line :: f' => (line, f')
  end.

(** [words[i]] *)
Definition getitem (words : list string) (i : nat) : outcome string :=
  match nth_error words i with
  | Some w => Return w
  | None => Fail IndexError
  end.

Section Files.

(** [float(word)] on the words of a file: the number a word spells, if it
    spells one. *)
Variable float : string -> option R.

Definition py_float (word : string) : outcome R :=
  match float word with
  | Some v => Return v
  | None => Fail (Builtin ValueError)
  end.

(** [float(f.readline().split()[i])] *)
Definition read_float (i : nat) (f : list string) : outcome (R * list string) :=
  let (line, f') := readline f in
  word <~ getitem (split line) i ;;
  v <~ py_float word ;;
  Return (v, f').

(** What [Source.from_CMTSOLUTION_file] reads, in the order of the
    constructor's arguments it passes. *)
Definition read_CMTSOLUTION (f : list string)
    : outcome (R * R * R * (R * R * R * R * R * R) * R) :=
  let (_, f) := readline f in
  let (_, f) := readline f in
  p <~ read_float 2 f ;; let (time_shift, f) := p : R * list string in
  let (_, f) := readline f in
  p <~ read_float 1 f ;; let (latitude, f) := p : R * list string in
  p <~ read_float 1 f ;; let (longitude, f) := p : R * list string in
  p <~ read_float 1 f ;; let (depth, f) := p : R * list string in
  let depth_in_m := depth * 1000 in
  p <~ read_float 1 f ;; let (rr, f) := p : R * list string in
  p <~ read_float 1 f ;; let (tt, f) := p : R * list string in
  p <~ read_float 1 f ;; let (pp, f) := p : R * list string in
  p <~ read_float 1 f ;; let (rt, f) := p : R * list string in
  p <~ read_float 1 f ;; let (rp, f) := p : R * list string in
  p <~ read_float 1 f ;; let (tp, f) := p : R * list string in
  Return (latitude, longitude, depth_in_m,
          (rr / 10000000, tt / 10000000, pp / 10000000,
           rt / 10000000, rp / 10000000, tp / 10000000),
          time_shift).

(** [Source.from_CMTSOLUTION_file], the file given by its lines: the values
    read go to the constructor, [sliprate] and [dt] at their defaults. *)
Definition from_CMTSOLUTION_file (f : list string)
    : heap -> outcome Source.t * heap :=
  fun h =>
    match read_CMTSOLUTION f with
    | Fail e => (Fail e, h)
    | Return (latitude, longitude, depth_in_m,
              (m_rr, m_tt, m_pp, m_rt, m_rp, m_tp), time_shift) =>
        match Source.__init__ latitude longitude (Some depth_in_m)
                              m_rr m_tt m_pp m_rt m_rp m_tp
                              (Some time_shift) None None h with
        | (Ok s, h') => (Return s, h')
        | (Raise e, h') => (Fail (Builtin e), h')
        end
    end.

(** The loop of [Receiver._parse_stations_file] over the lines of the file:
    a line has six words, [station network lat lon _ _]. *)
Fixpoint parse_stations_lines (f : list string) (receivers : list Receiver.t)
    : outcome (list Receiver.t) :=
  match f with
  | [] => Return receivers
  | line :: f' =>
      match split line with
      | [station; network; lat; lon; _; _] =>
          lat <~ py_float lat ;;
          lon <~ py_float lon ;;
          parse_stations_lines f'
            (receivers ++ [Receiver.__init__ lat lon (Some network)
                                             (Some station) None])
      | _ => Fail (Builtin ValueError)
      end
  end.

Definition _parse_stations_file (f : list string) : outcome (list Receiver.t) :=
  parse_stations_lines f [].

(** The word [word_index] of line [line_index] of the file spells [v]. *)
Definition word_value (f : list string) (line_index word_index : nat) (v : R)
    : Prop :=
  exists word,
    nth_error (split (nth line_index f EmptyString)) word_index = Some word
    /\ float word = Some v.

(** A line of a STATIONS file and the receiver it stands for. *)
Definition line_receiver (line : string) (r : Receiver.t) : Prop :=
  exists station network lat lon w5 w6 la lo,
    split line = [station; network; lat; lon; w5; w6]
    /\ float lat = Some la /\ float lon = Some lo
    /\ r = Receiver.mk (SourceOrReceiver.mk la lo None) network station.

End Files.

(** ** Specification of [_purge_duplicates] and of the parsed receivers *)

Definition Receiver_eq_dec (r1 r2 : Receiver.t) : {r1 = r2} + {r1 <> r2}.
Proof.
  destruct r1 as [[lat1 lon1 dep1] net1 sta1], r2 as [[lat2 lon2 dep2] net2 sta2].
  destruct (Req_dec_T lat1 lat2) as [?|?]; [|right; congruence].
  destruct (Req_dec_T lon1 lon2) as [?|?]; [|right; congruence].
  destruct (string_dec net1 net2) as [?|?]; [|right; congruence].
  destruct (string_dec sta1 sta2) as [?|?]; [|right; congruence].
  destruct dep1 as [d1|], dep2 as [d2|]; try (right; congruence).
  - destruct (Req_dec_T d1 d2) as [?|?]; [left|right]; congruence.
  - left; congruence.
Defined.

(** The docstring of [_purge_duplicates]: "Preserves the order and will
    remove duplicates occuring later in the list".  [unseen seen l] are the
    items of [l] that are neither in [seen] nor earlier in [l]. *)
Fixpoint unseen (seen l : list Receiver.t) : list Receiver.t :=
  match l with
  | [] => []
  | x :: l' =>
      if in_dec Receiver_eq_dec x seen
      then unseen seen l'
      else x :: unseen (seen ++ [x]) l'
  end.

Definition first_occurrences (l : list Receiver.t) : list Receiver.t :=
  unseen [] l.

(** The coordinates [Receiver.parse] takes for a station: those of its
    first channel, and its own when it has no channel. *)
Definition station_coordinates (s : obspy.Station) : R * R :=
  match obspy.channels s with
  | [] => (obspy.station_latitude s, obspy.station_longitude s)
  | c :: _ => (obspy.channel_latitude c, obspy.channel_longitude c)
  end.

(** All channels of the station are at the same place. *)
Definition channels_agree (s : obspy.Station) : Prop :=
  Forall (fun c => (obspy.channel_latitude c, obspy.channel_longitude c)
                   = station_coordinates s)
         (obspy.channels s).

Definition station_receiver (network_code : string) (s : obspy.Station)
    : Receiver.t :=
  Receiver.__init__ (fst (station_coordinates s)) (snd (station_coordinates s))
                    (Some network_code) (Some (obspy.station_code s)) None.

(** A trace with SAC coordinates, none of them SAC's "undefined". *)
Definition has_coordinates (tr : obspy.Trace) : Prop :=
  exists sac, obspy.stats_sac tr = Some sac
              /\ obspy.stla sac <> -12345 /\ obspy.stlo sac <> -12345.

Definition trace_receiver (tr : obspy.Trace) : Receiver.t :=
  match obspy.stats_sac tr with
  | Some sac =>
      Receiver.__init__ (obspy.stla sac) (obspy.stlo sac)
                        (Some (obspy.stats_network tr))
                        (Some (obspy.stats_station tr)) None
  | None => Receiver.__init__ 0 0 None None None
  end.

(** ** Example ObsPy objects *)

(** A station with three channels at one place, elsewhere than the station
    says. *)
Definition three_channel_station : obspy.Station :=
  obspy.mk_Station "FUR" 48 11
    [obspy.mk_Channel 1 2; obspy.mk_Channel 1 2; obspy.mk_Channel 1 2].

(** A station whose two channels are one degree apart. *)
Definition split_station : obspy.Station :=
  obspy.mk_Station "FUR" 48 11 [obspy.mk_Channel 1 2; obspy.mk_Channel 2 2].

(** The vertical, north and east component of one station. *)
Definition three_components : list obspy.Trace :=
  [obspy.mk_Trace "GR.FUR..BHZ" "GR" "FUR" (Some (obspy.mk_SAC 48 11));
   obspy.mk_Trace "GR.FUR..BHN" "GR" "FUR" (Some (obspy.mk_SAC 48 11));
   obspy.mk_Trace "GR.FUR..BHE" "GR" "FUR" (Some (obspy.mk_SAC 48 11))].

(** ** Example files *)

(** [float] on the words of the example files. *)
Definition example_float (word : string) : option R :=
  if String.eqb word "0" then Some 0
  else if String.eqb word "1" then Some 1
  else if String.eqb word "2" then Some 2
  else if String.eqb word "11" then Some 11
  else if String.eqb word "12" then Some 12
  else if String.eqb word "48" then Some 48
  else if String.eqb word "565" then Some 565
  else None.

(** A STATIONS file of two lines. *)
Definition example_STATIONS : list string :=
  ["FUR GR 48 11 0 565"%string; "WET  GR  12  48  0  0 "%string].

(** A CMTSOLUTION file. *)
Definition example_CMTSOLUTION : list string :=
  [" PDE 2011 8 23 VIRGINIA"%string;
   "event name: 201108231751A"%string;
   "time shift: 1"%string;
   "half duration: 2"%string;
   "latitude: 48"%string;
   "longitude: 11"%string;
   "depth: 12"%string;
   "Mrr: 1"%string;
   "Mtt: 2"%string;
   "Mpp: 0"%string;
   "Mrt: 11"%string;
   "Mrp: 12"%string;
   "Mtp: 48"%string].

(** * Properties *)

(** ** Running the monad *)

Lemma bind_Ok {A B : Type} (m : Py A) (k : A -> Py B) (h h' : heap) (a : A) :
  m h = (Ok a, h') -> bind m k h = k a h'.
Proof. intros E. unfold bind. now rewrite E. Qed.

Lemma bind_Raise {A B : Type} (m : Py A) (k : A -> Py B) (h h' : heap) (e : exn) :
  m h = (Raise e, h') -> bind m k h = (Raise e, h').
Proof. intros E. unfold bind. now rewrite E. Qed.

Lemma Source_init_Ok latitude longitude depth_in_m m_rr m_tt m_pp m_rt m_rp m_tp
    time_shift sliprate dt h :
  Source.__init__ latitude longitude depth_in_m m_rr m_tt m_pp m_rt m_rp m_tp
                  time_shift sliprate dt h
  = (Ok (Source.mk (SourceOrReceiver.mk latitude longitude depth_in_m)
                   m_rr m_tt m_pp m_rt m_rp m_tp time_shift
                   (option_map (mk_ndarray h) sliprate) dt),
     match sliprate with Some _ => S h | None => h end).
Proof. destruct sliprate; reflexivity. Qed.

(** ** Force source and receiver *)

(** C6.  The two views [force_tpr] and [force_rtp] of a force source are
    the same list, [f_t, f_p, f_r]. *)
Theorem force_rtp_is_force_tpr :
  forall f : ForceSource.t,
    ForceSource.force_tpr f
    = [ForceSource.f_t f; ForceSource.f_p f; ForceSource.f_r f]
    /\ ForceSource.force_rtp f
       = [ForceSource.f_t f; ForceSource.f_p f; ForceSource.f_r f]
    /\ ForceSource.force_rtp f = ForceSource.force_tpr f.
Proof. intros f. repeat split. Qed.

Lemma or_empty_spec (v : option string) :
  or_empty v = match v with Some s => s | None => EmptyString end.
Proof.
  destruct v as [s|]; [|reflexivity]. simpl.
  destruct (String.eqb_spec s EmptyString) as [->|]; reflexivity.
Qed.

(** C9.  A receiver built with [None] or with the empty string for the
    network (the station) stores the empty string; whatever the arguments,
    the stored network and station are the strings given, [None] read as the
    empty string. *)
Theorem Receiver_network_station_strings :
  forall latitude longitude network station depth_in_m,
    Receiver.network (Receiver.__init__ latitude longitude None station depth_in_m)
    = EmptyString
    /\ Receiver.network
         (Receiver.__init__ latitude longitude (Some EmptyString) station depth_in_m)
       = EmptyString
    /\ Receiver.station (Receiver.__init__ latitude longitude network None depth_in_m)
       = EmptyString
    /\ Receiver.station
         (Receiver.__init__ latitude longitude network (Some EmptyString) depth_in_m)
       = EmptyString
    /\ Receiver.network (Receiver.__init__ latitude longitude network station depth_in_m)
       = match network with Some s => s | None => EmptyString end
    /\ Receiver.station (Receiver.__init__ latitude longitude network station depth_in_m)
       = match station with Some s => s | None => EmptyString end.
Proof.
  intros. unfold Receiver.__init__; simpl.
  rewrite !or_empty_spec. repeat split.
Qed.

(** ** The source time function *)

(** C10.  [set_sliprate] stores its [time_shift] argument whatever the
    object held before: called with the argument's default, [None], it
    leaves [time_shift = None], also on an object that had a time shift. *)
Theorem set_sliprate_overwrites_time_shift :
  (forall self sliprate dt time_shift normalize h,
      exists s h',
        Source.set_sliprate self sliprate dt time_shift normalize h = (Ok s, h')
        /\ Source.time_shift s = time_shift)
  /\ (forall base m_rr m_tt m_pp m_rt m_rp m_tp (previous : R) old_sliprate old_dt
             sliprate dt normalize h,
         exists s h',
           Source.set_sliprate
             (Source.mk base m_rr m_tt m_pp m_rt m_rp m_tp (Some previous)
                        old_sliprate old_dt)
             sliprate dt Source.time_shift_default normalize h
           = (Ok s, h')
           /\ Source.time_shift s = None).
Proof.
  split; intros; unfold Source.set_sliprate, bind, np.array, ret; simpl;
    eexists; eexists; split; reflexivity.
Qed.

Lemma length_linspace (start stop : R) (num : nat) :
  length (np.linspace start stop num) = num.
Proof. unfold np.linspace. now rewrite length_map, length_seq. Qed.

(** [resample_sliprate] returns exactly when a non-empty sliprate and [dt]
    are set, and then with the interpolated samples in a new array. *)
Lemma resample_sliprate_Ok (self : Source.t) (old : ndarray) (dt_old dt : R)
    (nsamp : nat) (h : heap) :
  Source.sliprate self = Some old ->
  Source.dt self = Some dt_old ->
  arr_data old <> [] ->
  Source.resample_sliprate self dt nsamp h
  = (Ok (Source.mk (Source.base self) (Source.m_rr self) (Source.m_tt self)
                   (Source.m_pp self) (Source.m_rt self) (Source.m_rp self)
                   (Source.m_tp self) (Source.time_shift self)
                   (Some (mk_ndarray h
                            (map (np.interp_at
                                    (time_axis dt_old (length (arr_data old)))
                                    (arr_data old))
                                 (time_axis dt nsamp))))
                   (Some dt)),
     S h).
Proof.
  intros Hs Hd Hne. unfold Source.resample_sliprate, not_None, time_axis.
  rewrite Hs, Hd. unfold bind, ret, np.interp; simpl.
  rewrite length_linspace, Nat.eqb_refl.
  destruct (arr_data old) as [|v vs]; [contradiction|]. simpl.
  rewrite (Rmult_comm (INR nsamp) dt). reflexivity.
Qed.

Lemma resample_sliprate_Raise (self : Source.t) (dt : R) (nsamp : nat) (h : heap) :
  Source.sliprate self = None \/ Source.dt self = None
  \/ (exists old, Source.sliprate self = Some old /\ arr_data old = []) ->
  exists e, Source.resample_sliprate self dt nsamp h = (Raise e, h).
Proof.
  unfold Source.resample_sliprate, not_None, bind, ret, raise.
  intros [Hs | [Hd | [old [Hs Ho]]]].
  - rewrite Hs. now exists TypeError.
  - rewrite Hd. destruct (Source.sliprate self); now exists TypeError.
  - rewrite Hs. destruct (Source.dt self); [|now exists TypeError].
    unfold np.interp. rewrite length_linspace, Ho. simpl. now exists ValueError.
Qed.

(** C7.  [resample_sliprate] changes the attributes [sliprate] and [dt] only:
    after the call, [time_shift], [latitude], [longitude], [depth_in_m] and
    the six components of the moment tensor are what they were; and on an
    object with a non-empty sliprate and [dt] set the call returns, with
    [nsamp] samples and the new [dt]. *)
Theorem resample_sliprate_frame :
  (forall self dt nsamp h,
      let self' := self_after (Source.resample_sliprate self dt nsamp) self h in
      Source.time_shift self' = Source.time_shift self
      /\ SourceOrReceiver.latitude (Source.base self')
         = SourceOrReceiver.latitude (Source.base self)
      /\ SourceOrReceiver.longitude (Source.base self')
         = SourceOrReceiver.longitude (Source.base self)
      /\ SourceOrReceiver.depth_in_m (Source.base self')
         = SourceOrReceiver.depth_in_m (Source.base self)
      /\ Source.m_rr self' = Source.m_rr self
      /\ Source.m_tt self' = Source.m_tt self
      /\ Source.m_pp self' = Source.m_pp self
      /\ Source.m_rt self' = Source.m_rt self
      /\ Source.m_rp self' = Source.m_rp self
      /\ Source.m_tp self' = Source.m_tp self)
  /\ (forall base m_rr m_tt m_pp m_rt m_rp m_tp time_shift id v vs dt_old dt nsamp h,
         exists self' new h',
           Source.resample_sliprate
             (Source.mk base m_rr m_tt m_pp m_rt m_rp m_tp time_shift
                        (Some (mk_ndarray id (v :: vs))) (Some dt_old))
             dt nsamp h
           = (Ok self', h')
           /\ Source.sliprate self' = Some new
           /\ length (arr_data new) = nsamp
           /\ Source.dt self' = Some dt).
Proof.
  split.
  - intros self dt nsamp h self'. subst self'. unfold self_after.
    destruct (Source.sliprate self) as [old|] eqn:Hs.
    2:{ destruct (resample_sliprate_Raise self dt nsamp h) as [e ->]; auto.
        simpl. repeat split. }
    destruct (Source.dt self) as [dt_old|] eqn:Hd.
    2:{ destruct (resample_sliprate_Raise self dt nsamp h) as [e ->]; auto.
        simpl. repeat split. }
    destruct (arr_data old) as [|v vs] eqn:Ho.
    { destruct (resample_sliprate_Raise self dt nsamp h) as [e ->].
      - right; right. now exists old.
      - simpl. repeat split. }
    rewrite (resample_sliprate_Ok self old dt_old dt nsamp h Hs Hd)
      by (rewrite Ho; discriminate).
    simpl. repeat split.
  - intros.
    rewrite (resample_sliprate_Ok
               (Source.mk base m_rr m_tt m_pp m_rt m_rp m_tp time_shift
                          (Some (mk_ndarray id (v :: vs))) (Some dt_old))
               (mk_ndarray id (v :: vs)) dt_old dt nsamp h eq_refl eq_refl)
      by discriminate.
    eexists; eexists; eexists.
    split; [reflexivity|]. split; [reflexivity|]. split; [|reflexivity].
    cbn [arr_data]. unfold time_axis.
    now rewrite length_map, length_linspace.
Qed.

(** *** Interpolation over increasing sample points *)

Lemma increasing_tail (a : R) (xs : list R) :
  increasing (a :: xs) -> increasing xs.
Proof. intros H i Hi. apply (H (S i)). simpl. lia. Qed.

Lemma increasing_head_le (xs : list R) :
  forall a j, increasing (a :: xs) -> (j < length (a :: xs))%nat ->
              a <= nth j (a :: xs) 0.
Proof.
  induction xs as [|b xs IH]; intros a j Hinc Hj.
  - simpl in Hj. assert (j = 0%nat) as -> by lia. simpl. lra.
  - destruct j as [|j]; [simpl; lra|].
    assert (a < b) by (apply (Hinc 0%nat); simpl; lia).
    assert (b <= nth j (b :: xs) 0).
    { apply IH; [eapply increasing_tail; eassumption | simpl in *; lia]. }
    change (nth (S j) (a :: b :: xs) 0) with (nth j (b :: xs) 0). lra.
Qed.

(** At its left sample point the interpolant takes that sample. *)
Lemma interp_seg_left (x0 y0 : R) (xp fp : list R) :
  increasing (x0 :: xp) -> np.interp_seg x0 x0 y0 xp fp = y0.
Proof.
  intros Hinc. destruct xp as [|x1 xp], fp as [|y1 fp]; try reflexivity.
  simpl. destruct (Rlt_dec x0 x1) as [_|Hn].
  - unfold Rdiv. ring.
  - exfalso. apply Hn. apply (Hinc 0%nat). simpl. lia.
Qed.

(** The value on a segment between two sample points, and right of the
    last one. *)
Lemma interp_seg_spec (xp : list R) :
  forall fp x0 y0 x,
    length xp = length fp -> increasing (x0 :: xp) -> x0 <= x ->
    (forall j, (S j < length (x0 :: xp))%nat ->
               nth j (x0 :: xp) 0 <= x <= nth (S j) (x0 :: xp) 0 ->
               np.interp_seg x x0 y0 xp fp
               = nth j (y0 :: fp) 0
                 + (nth (S j) (y0 :: fp) 0 - nth j (y0 :: fp) 0)
                   * ((x - nth j (x0 :: xp) 0)
                      / (nth (S j) (x0 :: xp) 0 - nth j (x0 :: xp) 0)))
    /\ (nth (length xp) (x0 :: xp) 0 <= x ->
        np.interp_seg x x0 y0 xp fp = nth (length xp) (y0 :: fp) 0).
Proof.
  induction xp as [|x1 xp IH]; intros fp x0 y0 x Hlen Hinc Hx.
  - destruct fp; [|discriminate]. split.
    + intros j Hj. simpl in Hj. lia.
    + reflexivity.
  - destruct fp as [|y1 fp]; [discriminate|].
    assert (Hlen' : length xp = length fp) by (simpl in Hlen; lia).
    assert (Hinc' : increasing (x1 :: xp)) by (eapply increasing_tail; eassumption).
    assert (H01 : x0 < x1) by (apply (Hinc 0%nat); simpl; lia).
    cbn [np.interp_seg].
    destruct (Rlt_dec x x1) as [Hlt|Hge].
    + split.
      * intros [|j] Hj Hseg.
        -- cbn [nth]. unfold Rdiv. ring.
        -- exfalso. destruct Hseg as [Hseg _].
           change (nth (S j) (x0 :: x1 :: xp) 0) with (nth j (x1 :: xp) 0) in Hseg.
           pose proof (increasing_head_le xp x1 j Hinc') as Hle.
           simpl in Hj. simpl length in Hle. specialize (Hle ltac:(lia)). lra.
      * intros Hlast. exfalso.
        change (nth (length (x1 :: xp)) (x0 :: x1 :: xp) 0)
          with (nth (length xp) (x1 :: xp) 0) in Hlast.
        pose proof (increasing_head_le xp x1 (length xp) Hinc') as Hle.
        simpl length in Hle. specialize (Hle ltac:(lia)). lra.
    + apply Rnot_lt_le in Hge.
      destruct (IH fp x1 y1 x Hlen' Hinc' Hge) as [IHseg IHlast].
      split.
      * intros [|j] Hj Hseg.
        -- cbn [nth] in *. assert (x = x1) as -> by lra.
           rewrite interp_seg_left by assumption. field. lra.
        -- change (nth (S (S j)) (x0 :: x1 :: xp) 0)
             with (nth (S j) (x1 :: xp) 0) in *.
           change (nth (S j) (x0 :: x1 :: xp) 0) with (nth j (x1 :: xp) 0) in *.
           change (nth (S (S j)) (y0 :: y1 :: fp) 0) with (nth (S j) (y1 :: fp) 0).
           change (nth (S j) (y0 :: y1 :: fp) 0) with (nth j (y1 :: fp) 0).
           apply IHseg; [simpl in *; lia | assumption].
      * intros Hlast. apply IHlast. exact Hlast.
Qed.

(** [np.interp] at one point, for increasing sample points: the first
    sample left of them, the last sample right of them, and on each segment
    the line through its two samples. *)
Lemma interp_at_spec (xp fp : list R) (x : R) :
  length xp = length fp -> xp <> [] -> increasing xp ->
  (x <= nth 0 xp 0 -> np.interp_at xp fp x = nth 0 fp 0)
  /\ (nth (length xp - 1) xp 0 <= x ->
      np.interp_at xp fp x = nth (length xp - 1) fp 0)
  /\ (forall j, (S j < length xp)%nat ->
                nth j xp 0 <= x <= nth (S j) xp 0 ->
                np.interp_at xp fp x
                = nth j fp 0
                  + (nth (S j) fp 0 - nth j fp 0)
                    * ((x - nth j xp 0) / (nth (S j) xp 0 - nth j xp 0))).
Proof.
  intros Hlen Hne Hinc.
  destruct xp as [|x0 xp]; [contradiction|].
  destruct fp as [|y0 fp]; [discriminate|].
  assert (Hlen' : length xp = length fp) by (simpl in Hlen; lia).
  replace (length (x0 :: xp) - 1)%nat with (length xp) by (simpl; lia).
  cbn [np.interp_at].
  destruct (Rlt_dec x x0) as [Hlt|Hge].
  - split; [reflexivity|]. split.
    + intros Hlast. exfalso.
      pose proof (increasing_head_le xp x0 (length xp) Hinc) as Hle.
      simpl length in Hle. specialize (Hle ltac:(lia)). lra.
    + intros j Hj [Hseg _]. exfalso.
      pose proof (increasing_head_le xp x0 j Hinc) as Hle.
      specialize (Hle ltac:(lia)). lra.
  - apply Rnot_lt_le in Hge.
    destruct (interp_seg_spec xp fp x0 y0 x Hlen' Hinc Hge) as [Hseg Hlast].
    split; [|split].
    + cbn [nth]. intros Hx0. assert (x = x0) as -> by lra.
      now apply interp_seg_left.
    + exact Hlast.
    + exact Hseg.
Qed.

(** *** The time axes *)

Lemma nth_time_axis (dt : R) (n i : nat) :
  (i < n)%nat -> nth i (time_axis dt n) 0 = INR i * dt.
Proof.
  intros Hi. unfold time_axis, np.linspace.
  set (f := fun k : nat => INR k * ((dt * INR n - 0) / INR n) + 0).
  rewrite (nth_indep _ 0 (f 0%nat)) by now rewrite length_map, length_seq.
  rewrite map_nth, seq_nth by assumption.
  unfold f. simpl Nat.add. field.
  apply not_0_INR. lia.
Qed.

Lemma length_time_axis (dt : R) (n : nat) : length (time_axis dt n) = n.
Proof. apply length_linspace. Qed.

Lemma increasing_time_axis (dt : R) (n : nat) :
  0 < dt -> increasing (time_axis dt n).
Proof.
  intros Hdt i Hi. rewrite length_time_axis in Hi.
  rewrite !nth_time_axis by lia. rewrite S_INR. lra.
Qed.

Lemma time_axis_nonempty (dt : R) (n : nat) :
  n <> 0%nat -> time_axis dt n <> [].
Proof.
  intros Hn E. apply (f_equal (@length R)) in E.
  rewrite length_time_axis in E. simpl in E. contradiction.
Qed.

(** *** Resampling twice *)

(** Interpolating a series at its own sample points gives the series. *)
Lemma interp_own_points (xp fp : list R) :
  length xp = length fp -> increasing xp ->
  map (np.interp_at xp fp) xp = fp.
Proof.
  intros Hlen Hinc.
  apply (nth_ext _ _ 0 0); [now rewrite length_map|].
  intros i Hi. rewrite length_map in Hi.
  rewrite (nth_indep _ 0 (np.interp_at xp fp 0)) by now rewrite length_map.
  rewrite map_nth.
  assert (Hne : xp <> []) by (destruct xp; [simpl in Hi; lia|discriminate]).
  destruct (interp_at_spec xp fp (nth i xp 0) Hlen Hne Hinc) as (_ & Hlast & Hseg).
  destruct (Nat.eq_dec (S i) (length xp)) as [E|NE].
  - replace (length xp - 1)%nat with i in Hlast by lia. apply Hlast. lra.
  - assert (Hj : (S i < length xp)%nat) by lia.
    assert (Hlt : nth i xp 0 < nth (S i) xp 0) by now apply Hinc.
    rewrite (Hseg i Hj) by lra. unfold Rdiv. ring.
Qed.

(** What a returning call of [resample_sliprate] has done. *)
Lemma resample_sliprate_inv (self self' : Source.t) (dt : R) (nsamp : nat)
    (h h' : heap) :
  Source.resample_sliprate self dt nsamp h = (Ok self', h') ->
  exists old dt_old,
    Source.sliprate self = Some old
    /\ Source.dt self = Some dt_old
    /\ arr_data old <> []
    /\ Source.sliprate self'
       = Some (mk_ndarray h
                 (map (np.interp_at (time_axis dt_old (length (arr_data old)))
                                    (arr_data old))
                      (time_axis dt nsamp)))
    /\ Source.dt self' = Some dt.
Proof.
  intros Hrun.
  destruct (Source.sliprate self) as [old|] eqn:Hs.
  2:{ destruct (resample_sliprate_Raise self dt nsamp h) as [e He]; auto.
      rewrite He in Hrun. discriminate. }
  destruct (Source.dt self) as [dt_old|] eqn:Hd.
  2:{ destruct (resample_sliprate_Raise self dt nsamp h) as [e He]; auto.
      rewrite He in Hrun. discriminate. }
  destruct (arr_data old) as [|v vs] eqn:Ho.
  { destruct (resample_sliprate_Raise self dt nsamp h) as [e He].
    - right; right. now exists old.
    - rewrite He in Hrun. discriminate. }
  assert (Hne : arr_data old <> []) by (rewrite Ho; discriminate).
  rewrite (resample_sliprate_Ok self old dt_old dt nsamp h Hs Hd Hne) in Hrun.
  injection Hrun as <- <-.
  exists old, dt_old. rewrite Ho in *. repeat split. discriminate.
Qed.

(** C8.  After [resample_sliprate(dt, nsamp)] with a sampling interval
    [dt > 0], a second [resample_sliprate(dt, nsamp)] leaves the samples of
    the sliprate, and [dt], as they are.  The second call returns, except
    for [nsamp = 0]: the sliprate is then empty and [interp] raises. *)
Theorem resample_sliprate_idempotent :
  forall (self self1 : Source.t) (dt : R) (nsamp : nat) (h h1 : heap),
    0 < dt ->
    Source.resample_sliprate self dt nsamp h = (Ok self1, h1) ->
    let self2 := self_after (Source.resample_sliprate self1 dt nsamp) self1 h1 in
    option_map arr_data (Source.sliprate self2)
    = option_map arr_data (Source.sliprate self1)
    /\ Source.dt self2 = Source.dt self1
    /\ (nsamp = 0%nat
        \/ exists h2, Source.resample_sliprate self1 dt nsamp h1 = (Ok self2, h2)).
Proof.
  intros self self1 dt nsamp h h1 Hdt Hrun self2. subst self2.
  destruct (resample_sliprate_inv _ _ _ _ _ _ Hrun)
    as (old & dt_old & _ & _ & _ & Hs1 & Hd1).
  set (data1 := map (np.interp_at (time_axis dt_old (length (arr_data old)))
                                  (arr_data old))
                    (time_axis dt nsamp)) in *.
  assert (Hlen1 : length data1 = nsamp).
  { subst data1. now rewrite length_map, length_time_axis. }
  unfold self_after.
  destruct nsamp as [|n].
  - destruct (resample_sliprate_Raise self1 dt 0 h1) as [e ->].
    + right; right. eexists. split; [exact Hs1|].
      cbn [arr_data]. now apply length_zero_iff_nil.
    + simpl. auto.
  - assert (Hne : arr_data (mk_ndarray h data1) <> []).
    { cbn [arr_data]. intros E. rewrite E in Hlen1. discriminate. }
    rewrite (resample_sliprate_Ok self1 _ dt dt (S n) h1 Hs1 Hd1 Hne).
    cbn [fst Source.sliprate Source.dt option_map arr_data].
    rewrite Hs1, Hd1. cbn [option_map arr_data]. rewrite Hlen1.
    rewrite interp_own_points.
    + split; [reflexivity|]. split; [reflexivity|]. right. now exists (S h1).
    + now rewrite length_time_axis.
    + now apply increasing_time_axis.
Qed.

(** The resampled triangle of C1's example, resampled again to
    [dt = 0.5], [nsamp = 5]. *)
Lemma resample_sliprate_idempotent_witness :
  exists self1 h1,
    0 < 1 / 2
    /\ Source.resample_sliprate triangle_source (1 / 2) 5 1%nat = (Ok self1, h1)
    /\ option_map arr_data
         (Source.sliprate
            (self_after (Source.resample_sliprate self1 (1 / 2) 5) self1 h1))
       = option_map arr_data (Source.sliprate self1)
    /\ exists h2,
         Source.resample_sliprate self1 (1 / 2) 5 h1
         = (Ok (self_after (Source.resample_sliprate self1 (1 / 2) 5) self1 h1), h2).
Proof.
  assert (Hdt : 0 < 1 / 2) by lra.
  assert (Hne : arr_data (mk_ndarray 0 [0; 1; 0]) <> []) by discriminate.
  pose proof (resample_sliprate_Ok triangle_source (mk_ndarray 0 [0; 1; 0]) 1
                (1 / 2) 5 1%nat eq_refl eq_refl Hne) as Hrun.
  eexists; eexists.
  split; [exact Hdt|]. split; [exact Hrun|].
  destruct (resample_sliprate_idempotent _ _ _ _ _ _ Hdt Hrun) as (Hdata & _ & Hret).
  split; [exact Hdata|].
  destruct Hret as [H0 | Hret]; [discriminate H0 | exact Hret].
Defined.

(** ** The source time function in IEEE binary64 *)

Lemma f64_length_linspace (start stop : float) (num : nat) :
  length (f64.linspace start stop num) = num.
Proof. unfold f64.linspace. now rewrite length_map, length_seq. Qed.

Lemma f64_pairwise_sum_eq (fuel : nat) (a : list float) :
  f64.pairwise_sum fuel a
  = let n := length a in
    if (n <? 8)%nat then f64.add_all neg_zero a
    else if (n <=? 128)%nat then f64.block_sum a
    else
      match fuel with
      | O => f64.block_sum a
      | S fuel' =>
          let n2 := (n / 2 - (n / 2) mod 8)%nat in
          PrimFloat.add (f64.pairwise_sum fuel' (firstn n2 a))
                        (f64.pairwise_sum fuel' (skipn n2 a))
      end.
Proof. destruct fuel; reflexivity. Qed.

(** The recursion of [pairwise_sum] ends within the length of the array:
    more fuel does not change the sum. *)
Lemma f64_pairwise_sum_fuel :
  forall (fuel fuel' : nat) (a : list float),
    (length a <= fuel)%nat -> (length a <= fuel')%nat ->
    f64.pairwise_sum fuel a = f64.pairwise_sum fuel' a.
Proof.
  induction fuel as [|fuel IH]; intros fuel' a Hf Hf';
    rewrite (f64_pairwise_sum_eq _ a), (f64_pairwise_sum_eq fuel' a);
    cbv zeta;
    destruct (Nat.ltb_spec (length a) 8) as [|H8]; try reflexivity;
    destruct (Nat.leb_spec (length a) 128) as [|H128]; try reflexivity.
  - lia.
  - destruct fuel' as [|fuel']; [lia|].
    set (n := length a) in *.
    assert (Hhalf : (n / 2 < n)%nat) by (apply Nat.div_lt; lia).
    assert (Hbig : (64 <= n / 2)%nat)
      by (apply Nat.div_le_lower_bound; lia).
    assert (Hmod : ((n / 2) mod 8 < 8)%nat)
      by (apply Nat.mod_upper_bound; lia).
    f_equal; apply IH; rewrite ?length_firstn, ?length_skipn; fold n; lia.
Qed.

Lemma f64_segment_on_segment (x0 y0 x1 y1 t : float) :
  f64.on_segment x0 y0 x1 y1 t (f64.segment t x0 y0 x1 y1).
Proof.
  unfold f64.on_segment, f64.segment. split.
  - intros ->. reflexivity.
  - intros -> Hnan. cbv zeta. rewrite Hnan. reflexivity.
Qed.

(** The two ways out of the scan of [interp_seg]: past the last sample
    time, and on the first segment whose right end is above [x]. *)
Lemma f64_interp_seg_cases (xp : list float) :
  forall (fp : list float) (x0 y0 x : float),
    length xp = length fp ->
    ((forall k, (k < length xp)%nat ->
                PrimFloat.ltb x (nth k xp 0%float) = false) ->
     f64.interp_seg x x0 y0 xp fp = nth (length xp) (y0 :: fp) 0%float)
    /\ (forall j, (j < length xp)%nat ->
          (forall k, (k < j)%nat -> PrimFloat.ltb x (nth k xp 0%float) = false) ->
          PrimFloat.ltb x (nth j xp 0%float) = true ->
          f64.interp_seg x x0 y0 xp fp
          = f64.segment x (nth j (x0 :: xp) 0%float) (nth j (y0 :: fp) 0%float)
                        (nth (S j) (x0 :: xp) 0%float)
                        (nth (S j) (y0 :: fp) 0%float)).
Proof.
  induction xp as [|x1 xp IH]; intros fp x0 y0 x Hlen.
  - destruct fp; [|discriminate]. split; [reflexivity|].
    intros j Hj. simpl in Hj. lia.
  - destruct fp as [|y1 fp]; [discriminate|].
    assert (Hlen' : length xp = length fp) by (simpl in Hlen; lia).
    destruct (IH fp x1 y1 x Hlen') as [IHlast IHseg].
    cbn [f64.interp_seg]. split.
    + intros Hall.
      pose proof (Hall 0%nat ltac:(simpl; lia)) as H0. cbn [nth] in H0.
      rewrite H0. apply IHlast. intros k Hk. apply (Hall (S k)). simpl. lia.
    + intros [|j] Hj Hbefore Hj1.
      * cbn [nth] in *. rewrite Hj1. reflexivity.
      * pose proof (Hbefore 0%nat ltac:(lia)) as H0. cbn [nth] in H0.
        rewrite H0.
        apply IHseg; [simpl in Hj; lia| |exact Hj1].
        intros k Hk. apply (Hbefore (S k)). lia.
Qed.

Lemma f64_interp_at_interpolated (xp fp : list float) (t : float) :
  length xp = length fp -> xp <> [] -> PrimFloat.is_nan t = false ->
  f64.interpolated xp fp t (f64.interp_at xp fp t).
Proof.
  intros Hlen Hne Hnan. unfold f64.interp_at.
  destruct xp as [|x0 xp]; [contradiction|].
  destruct fp as [|y0 fp]; [discriminate|].
  assert (Hlen' : length xp = length fp) by (simpl in Hlen; lia).
  unfold f64.interpolated. cbv zeta.
  replace (length (x0 :: xp) - 1)%nat with (length xp) by (simpl; lia).
  destruct xp as [|x1 xp].
  - destruct fp; [|discriminate].
    split; [reflexivity|]. split; [reflexivity|].
    intros j Hj. simpl in Hj. lia.
  - rewrite Hnan.
    destruct (f64_interp_seg_cases (x1 :: xp) fp x0 y0 t Hlen')
      as [Hlast Hseg].
    split; [|split].
    + cbn [nth]. intros ->. reflexivity.
    + intros Hall.
      pose proof (Hall 0%nat ltac:(simpl; lia)) as H0. cbn [nth] in H0.
      rewrite H0. apply Hlast. intros k Hk. apply (Hall (S k)).
      simpl in Hk |- *. lia.
    + intros j Hj Hbefore Hj1.
      pose proof (Hbefore 0%nat ltac:(lia)) as H0. cbn [nth] in H0.
      rewrite H0.
      rewrite (Hseg j);
        [apply f64_segment_on_segment|simpl in Hj |- *; lia| |exact Hj1].
      intros k Hk. apply (Hbefore (S k)). lia.
Qed.

Lemma f64_resample_sliprate_interpolated
    (self : f64.Source.t) (old : f64.ndarray) (dt_old dt_new : float)
    (nsamp_new : nat) (h : heap) :
  f64.Source.sliprate self = Some old ->
  f64.Source.dt self = Some dt_old ->
  f64.arr_data old <> [] ->
  let n := length (f64.arr_data old) in
  let t_old := f64.linspace 0 (dt_old * f64.of_nat n) n in
  let t_new := f64.linspace 0 (f64.of_nat nsamp_new * dt_new) nsamp_new in
  exists self' new h',
    f64.Source.resample_sliprate self dt_new nsamp_new h = (Ok self', h')
    /\ f64.Source.sliprate self' = Some new
    /\ f64.Source.dt self' = Some dt_new
    /\ length (f64.arr_data new) = nsamp_new
    /\ forall i, (i < nsamp_new)%nat ->
         PrimFloat.is_nan (nth i t_new 0%float) = false ->
         f64.interpolated t_old (f64.arr_data old) (nth i t_new 0%float)
                          (nth i (f64.arr_data new) 0%float).
Proof.
  intros Hs Hd Hne n t_old t_new.
  assert (Hn : n <> 0%nat).
  { subst n. destruct (f64.arr_data old); [contradiction|discriminate]. }
  unfold f64.Source.resample_sliprate, not_None. rewrite Hs, Hd.
  unfold bind, ret, f64.interp, f64.array. fold n. fold t_old. fold t_new.
  assert (Hlo : length t_old = n) by apply f64_length_linspace.
  rewrite Hlo. destruct (Nat.eqb_spec n 0) as [E|_]; [contradiction|].
  rewrite Nat.eqb_refl. cbn [negb].
  eexists; eexists; eexists.
  split; [reflexivity|]. split; [reflexivity|]. split; [reflexivity|].
  cbn [f64.arr_data]. split.
  - rewrite length_map. apply f64_length_linspace.
  - intros i Hi Hnan.
    set (f := f64.interp_at t_old (f64.arr_data old)).
    rewrite (nth_indep (map f t_new) 0%float (f 0%float))
      by (rewrite length_map; unfold t_new; now rewrite f64_length_linspace).
    rewrite map_nth. apply f64_interp_at_interpolated.
    + exact Hlo.
    + intros E. rewrite E in Hlo. simpl in Hlo. now apply Hn.
    + exact Hnan.
Qed.

(** C1, as amended.  On a source with a sliprate of length n >= 1 and
    [dt_old] set, whose old time axis is increasing,
    [resample_sliprate(dt_new, nsamp_new)] returns and stores [nsamp_new]
    samples and [dt_new].  The time axes are
    [t_old = linspace(0, dt_old * n, n)] and
    [t_new = linspace(0, nsamp_new * dt_new, nsamp_new)] as binary64
    computes them, in place of i * dt_old and i * dt_new.  Sample i is, for
    [t_new[i]] not NaN: the first old sample when [t_new[i]] is below the
    first old time; the last old sample when it is below no old time; and
    between, on the segment j that holds [t_new[i]], [old[j]] at the old
    time j itself and else [slope * (t_new[i] - t_old[j]) + old[j]] in
    rounded operations (where that is a number).  In particular the
    sliprate [0, 1, 0] at [dt = 1] resampled to [dt = 0.5], [nsamp = 5] is
    [0, 0.5, 1, 0.5, 0]. *)
Theorem resample_sliprate_float64 :
  (forall (self : f64.Source.t) (old : f64.ndarray) (dt_old dt_new : float)
          (nsamp_new : nat) (h : heap),
      f64.Source.sliprate self = Some old ->
      f64.Source.dt self = Some dt_old ->
      f64.arr_data old <> [] ->
      let n := length (f64.arr_data old) in
      let t_old := f64.linspace 0 (dt_old * f64.of_nat n) n in
      let t_new := f64.linspace 0 (f64.of_nat nsamp_new * dt_new) nsamp_new in
      f64.increasing t_old ->
      exists self' new h',
        f64.Source.resample_sliprate self dt_new nsamp_new h = (Ok self', h')
        /\ f64.Source.sliprate self' = Some new
        /\ f64.Source.dt self' = Some dt_new
        /\ length (f64.arr_data new) = nsamp_new
        /\ forall i, (i < nsamp_new)%nat ->
             PrimFloat.is_nan (nth i t_new 0%float) = false ->
             f64.interpolated t_old (f64.arr_data old) (nth i t_new 0%float)
                              (nth i (f64.arr_data new) 0%float))
  /\ (exists self' new h',
         f64.Source.resample_sliprate (f64.triangle_source 1) 0.5 5 1%nat
         = (Ok self', h')
         /\ f64.Source.sliprate self' = Some new
         /\ f64.Source.dt self' = Some 0.5%float
         /\ f64.arr_data new = [0; 0.5; 1; 0.5; 0]%float).
Proof.
  split.
  - intros self old dt_old dt_new nsamp_new h Hs Hd Hne n t_old t_new _.
    now apply f64_resample_sliprate_interpolated.
  - eexists; eexists; eexists.
    split; [vm_compute; reflexivity|]. repeat split; reflexivity.
Qed.

(** The sliprate [0, 1, 0] at [dt = 1] resampled to [dt = 0.5],
    [nsamp = 5]: the old times are [0, 1, 2], the new times
    [0, 0.5, 1, 1.5, 2], none of them NaN, and the stored samples are the
    interpolated values [0, 0.5, 1, 0.5, 0]. *)
Lemma resample_sliprate_float64_witness :
  f64.linspace 0 (1 * f64.of_nat 3) 3 = [0; 1; 2]%float
  /\ f64.linspace 0 (f64.of_nat 5 * 0.5) 5 = [0; 0.5; 1; 1.5; 2]%float
  /\ f64.increasing [0; 1; 2]%float
  /\ exists self' new h',
       f64.Source.resample_sliprate (f64.triangle_source 1) 0.5 5 1%nat
       = (Ok self', h')
       /\ f64.Source.sliprate self' = Some new
       /\ f64.Source.dt self' = Some 0.5%float
       /\ f64.arr_data new = [0; 0.5; 1; 0.5; 0]%float
       /\ forall i, (i < 5)%nat ->
            f64.interpolated [0; 1; 2]%float [0; 1; 0]%float
              (nth i [0; 0.5; 1; 1.5; 2]%float 0%float)
              (nth i [0; 0.5; 1; 0.5; 0]%float 0%float).
Proof.
  assert (Hold : f64.linspace 0 (1 * f64.of_nat 3) 3 = [0; 1; 2]%float)
    by (vm_compute; reflexivity).
  assert (Hnew : f64.linspace 0 (f64.of_nat 5 * 0.5) 5
                 = [0; 0.5; 1; 1.5; 2]%float)
    by (vm_compute; reflexivity).
  assert (Hinc : f64.increasing [0; 1; 2]%float).
  { intros j Hj. simpl in Hj.
    do 2 (destruct j as [|j]; [reflexivity|]). lia. }
  split; [exact Hold|]. split; [exact Hnew|]. split; [exact Hinc|].
  assert (Hne : [0; 1; 0]%float <> []) by discriminate.
  pose proof Hinc as Hinc'. rewrite <- Hold in Hinc'.
  destruct (proj1 resample_sliprate_float64 (f64.triangle_source 1)
              (f64.mk_ndarray 0 [0; 1; 0]%float) 1%float 0.5%float 5%nat 1%nat
              eq_refl eq_refl Hne Hinc')
    as (self' & new & h' & Hrun & Hs & Hd & _ & Hint).
  exists self', new, h'.
  split; [exact Hrun|]. split; [exact Hs|]. split; [exact Hd|].
  assert (Hc : f64.Source.resample_sliprate (f64.triangle_source 1) 0.5 5 1%nat
               = (Ok (f64.Source.mk 0 0 None 0 0 0 0 0 0 None
                        (Some (f64.mk_ndarray 1 [0; 0.5; 1; 0.5; 0]%float))
                        (Some 0.5%float)), 2%nat)).
  { vm_compute. reflexivity. }
  rewrite Hc in Hrun. injection Hrun as <- _.
  cbn [f64.Source.sliprate] in Hs. injection Hs as <-.
  cbn [f64.arr_data length] in Hint. cbn [f64.arr_data].
  rewrite Hold, Hnew in Hint.
  split; [reflexivity|].
  intros i Hi. apply Hint; [exact Hi|].
  do 5 (destruct i as [|i]; [reflexivity|]). lia.
Defined.

(** C1 as stated fails in binary64.  The sliprate [0, 1, 0] at
    [dt = 0.1], resampled to [dt = 0.1], [nsamp = 5]: on the claim's time
    axes i * 0.1 the new time 1 is the old time 1 and the new times from 2
    on are not below the last old time, so that the interpolation is
    [0, 1, 0, 0, 0].  The code's old time axis is
    [0, 0.10000000000000002, 0.20000000000000004], not j * 0.1, and it
    stores [0, 0.9999999999999999, 2.2e-16, 0, 0]. *)
Lemma resample_sliprate_misses_old_samples :
  exists self' new h',
    f64.Source.resample_sliprate (f64.triangle_source f64.tenth) f64.tenth 5
                                 1%nat
    = (Ok self', h')
    /\ f64.Source.sliprate self' = Some new
    /\ map (f64.interp_at
              (map (fun j => f64.of_nat j * f64.tenth)%float [0; 1; 2]%nat)
              [0; 1; 0]%float)
           (map (fun i => f64.of_nat i * f64.tenth)%float
                [0; 1; 2; 3; 4]%nat)
       = [0; 1; 0; 0; 0]%float
    /\ f64.linspace 0 (f64.tenth * f64.of_nat 3) 3
       = [0; 0x1.999999999999bp-4; 0x1.999999999999bp-3]%float
    /\ f64.linspace 0 (f64.tenth * f64.of_nat 3) 3
       <> map (fun j => f64.of_nat j * f64.tenth)%float [0; 1; 2]%nat
    /\ f64.arr_data new = [0; 0x1.fffffffffffffp-1; 0x1p-52; 0; 0]%float
    /\ f64.arr_data new <> [0; 1; 0; 0; 0]%float.
Proof.
  eexists; eexists; eexists.
  split; [vm_compute; reflexivity|]. split; [reflexivity|].
  split; [vm_compute; reflexivity|].
  split; [vm_compute; reflexivity|]. split.
  - intros E. apply (f_equal (fun l => PrimFloat.eqb (nth 1 l 0%float)
                                         0x1.999999999999bp-4)) in E.
    vm_compute in E. discriminate.
  - split; [reflexivity|]. cbn [f64.arr_data]. intros E.
    apply (f_equal (fun l => PrimFloat.eqb (nth 1 l 0%float) 1)) in E.
    vm_compute in E. discriminate.
Qed.



(** ** Equality *)

Lemma float_eqb_refl (u : R) : np.float_eqb u u = true.
Proof. unfold np.float_eqb. destruct (Req_dec_T u u); congruence. Qed.

Lemma float_eqb_eq (u v : R) : np.float_eqb u v = true <-> u = v.
Proof.
  unfold np.float_eqb. destruct (Req_dec_T u v); split; congruence.
Qed.

(** Objects of different classes are unequal. *)
Lemma eq_other_class (self other : instance) :
  type self <> type other -> __eq__ self other = Ok false.
Proof.
  intros H. unfold __eq__.
  destruct self, other; simpl in *; try reflexivity; contradiction.
Qed.

Ltac attributes_differ :=
  split; [ simpl; discriminate
         | let E := fresh "E" in intros E; inversion E; subst; contradiction ].

Ltac decide_attribute :=
  match goal with
  | |- context [np.float_eqb ?u ?v] =>
      unfold np.float_eqb at 1;
      destruct (Req_dec_T u v); [ subst | attributes_differ ]
  | |- context [String.eqb ?u ?v] =>
      destruct (String.eqb_spec u v); [ subst | attributes_differ ]
  end.

(** On receivers [__eq__] is the comparison of all attributes. *)
Lemma Receiver_eq_iff (r1 r2 : Receiver.t) :
  __eq__ (a_Receiver r1) (a_Receiver r2) = Ok true <-> r1 = r2.
Proof.
  destruct r1 as [[lat1 lon1 dep1] net1 sta1], r2 as [[lat2 lon2 dep2] net2 sta2].
  unfold __eq__, dict_equal. simpl.
  do 2 decide_attribute.
  destruct dep1 as [d1|], dep2 as [d2|]; simpl;
    try (split; [discriminate | intros E'; inversion E']).
  - do 3 decide_attribute. split; reflexivity.
  - do 2 decide_attribute. split; reflexivity.
Qed.

(** On force sources [__eq__] is the comparison of all attributes. *)
Lemma ForceSource_eq_iff (f1 f2 : ForceSource.t) :
  __eq__ (a_ForceSource f1) (a_ForceSource f2) = Ok true <-> f1 = f2.
Proof.
  destruct f1 as [[lat1 lon1 dep1] r1 t1 p1], f2 as [[lat2 lon2 dep2] r2 t2 p2].
  unfold __eq__, dict_equal. simpl.
  do 2 decide_attribute.
  destruct dep1 as [d1|], dep2 as [d2|]; simpl;
    try (split; [discriminate | intros E'; inversion E']).
  - do 4 decide_attribute. split; reflexivity.
  - do 3 decide_attribute. split; reflexivity.
Qed.

Lemma RichCompareBool_refl (v : pyval) : RichCompareBool v v = Ok true.
Proof.
  destruct v; simpl.
  - reflexivity.
  - now rewrite float_eqb_refl.
  - now rewrite String.eqb_refl.
  - unfold np.bool_of_eq. now rewrite Nat.eqb_refl.
Qed.

(** An object equals itself: the arrays are then the same objects. *)
Lemma Source_eq_self (s : Source.t) : __eq__ (a_Source s) (a_Source s) = Ok true.
Proof.
  destruct s as [[lat lon dep] rr tt pp rt rp tp ts sl d].
  unfold __eq__, dict_equal. simpl.
  rewrite !float_eqb_refl, !RichCompareBool_refl. reflexivity.
Qed.

(** On sources without source time function [__eq__] is the comparison of
    all attributes. *)
Lemma Source_eq_iff_no_sliprate (s1 s2 : Source.t) :
  Source.sliprate s1 = None -> Source.sliprate s2 = None ->
  __eq__ (a_Source s1) (a_Source s2) = Ok true <-> s1 = s2.
Proof.
  destruct s1 as [[lat1 lon1 dep1] rr1 tt1 pp1 rt1 rp1 tp1 ts1 sl1 d1].
  destruct s2 as [[lat2 lon2 dep2] rr2 tt2 pp2 rt2 rp2 tp2 ts2 sl2 d2].
  simpl. intros -> ->.
  unfold __eq__, dict_equal. simpl.
  do 2 decide_attribute.
  destruct dep1 as [e1|], dep2 as [e2|]; simpl;
    try (split; [discriminate | intros E'; inversion E']);
    [decide_attribute|];
    do 6 decide_attribute;
    (destruct ts1 as [u1|], ts2 as [u2|]; simpl;
     try (split; [discriminate | intros E'; inversion E']);
     try decide_attribute;
     destruct d1 as [c1|], d2 as [c2|]; simpl;
     try (split; [discriminate | intros E'; inversion E']);
     try decide_attribute;
     split; reflexivity).
Qed.

(** C5.  [__eq__] on two sources built from the same constructor arguments,
    with a sliprate of two or more samples: each constructor call copies the
    samples into an array of its own, the comparison of the two [__dict__]
    reaches the two arrays, and the truth value of their elementwise
    comparison raises [ValueError].  The call does not return [True]. *)
Theorem Source_eq_identical_arguments_raises :
  forall latitude longitude depth_in_m m_rr m_tt m_pp m_rt m_rp m_tp time_shift
         (v0 v1 : R) (vs : list R) dt h,
    exists s1 h1 s2 h2,
      Source.__init__ latitude longitude depth_in_m m_rr m_tt m_pp m_rt m_rp m_tp
                      time_shift (Some (v0 :: v1 :: vs)) dt h = (Ok s1, h1)
      /\ Source.__init__ latitude longitude depth_in_m m_rr m_tt m_pp m_rt m_rp
                         m_tp time_shift (Some (v0 :: v1 :: vs)) dt h1 = (Ok s2, h2)
      /\ __eq__ (a_Source s1) (a_Source s2) = Raise ValueError
      /\ __ne__ (a_Source s1) (a_Source s2) = Raise ValueError.
Proof.
  intros. rewrite Source_init_Ok.
  eexists; eexists; eexists; eexists.
  split; [reflexivity|]. rewrite Source_init_Ok. split; [reflexivity|].
  assert (E : __eq__
    (a_Source (Source.mk (SourceOrReceiver.mk latitude longitude depth_in_m)
                 m_rr m_tt m_pp m_rt m_rp m_tp time_shift
                 (option_map (mk_ndarray h) (Some (v0 :: v1 :: vs))) dt))
    (a_Source (Source.mk (SourceOrReceiver.mk latitude longitude depth_in_m)
                 m_rr m_tt m_pp m_rt m_rp m_tp time_shift
                 (option_map (mk_ndarray (S h)) (Some (v0 :: v1 :: vs))) dt))
    = Raise ValueError).
  { unfold __eq__, dict_equal. simpl.
    rewrite !float_eqb_refl, !RichCompareBool_refl.
    unfold np.bool_of_eq, np.eq_shape. cbn [arr_id arr_data].
    replace (h =? S h)%nat with false by (symmetry; apply Nat.eqb_neq; lia).
    rewrite Nat.eqb_refl. reflexivity. }
  split; [exact E|]. unfold __ne__. now rewrite E.
Qed.

(** Two sources built from the same arguments with a sliprate of one sample
    do compare equal: the elementwise comparison has one element. *)
Lemma Source_eq_identical_arguments_one_sample :
  forall latitude longitude depth_in_m m_rr m_tt m_pp m_rt m_rp m_tp time_shift
         (v0 : R) dt h,
    __eq__
      (a_Source (Source.mk (SourceOrReceiver.mk latitude longitude depth_in_m)
                   m_rr m_tt m_pp m_rt m_rp m_tp time_shift
                   (Some (mk_ndarray h [v0])) dt))
      (a_Source (Source.mk (SourceOrReceiver.mk latitude longitude depth_in_m)
                   m_rr m_tt m_pp m_rt m_rp m_tp time_shift
                   (Some (mk_ndarray (S h) [v0])) dt))
    = Ok true.
Proof.
  intros. unfold __eq__, dict_equal. simpl.
  rewrite !float_eqb_refl, !RichCompareBool_refl.
  unfold np.bool_of_eq, np.eq_shape. cbn [arr_id arr_data length nth].
  replace (h =? S h)%nat with false by (symmetry; apply Nat.eqb_neq; lia).
  simpl. rewrite float_eqb_refl, ?RichCompareBool_refl. reflexivity.
Qed.

(** * Further properties *)

(** ** The moment tensor *)

(** X3.  [tensor_voigt] holds the six components of [tensor] in another
    order: its entries are the entries 1, 2, 0, 4, 3, 5 of [tensor]. *)
Theorem tensor_voigt_reorders_tensor :
  forall s : Source.t,
    Permutation (Source.tensor s) (Source.tensor_voigt s)
    /\ Source.tensor_voigt s
       = map (fun i => nth i (Source.tensor s) 0) [1; 2; 0; 4; 3; 5]%nat.
Proof.
  intros s. split; [|reflexivity].
  unfold Source.tensor, Source.tensor_voigt.
  set (rr := Source.m_rr s). set (tt := Source.m_tt s). set (pp := Source.m_pp s).
  set (rt := Source.m_rt s). set (rp := Source.m_rp s). set (tp := Source.m_tp s).
  apply Permutation_trans with (l' := [tt; rr; pp; rt; rp; tp]).
  - apply perm_swap.
  - apply perm_skip.
    apply Permutation_trans with (l' := [pp; rr; rt; rp; tp]).
    + apply perm_swap.
    + apply perm_skip, perm_skip, perm_swap.
Qed.

(** The source [from_strike_dip_rake] returns. *)
Lemma from_strike_dip_rake_Ok latitude longitude depth_in_m strike dip rake M0
    time_shift sliprate dt h :
  let phi := np.deg2rad strike in
  let delta := np.deg2rad dip in
  let lambd := np.deg2rad rake in
  Source.from_strike_dip_rake latitude longitude depth_in_m strike dip rake M0
                              time_shift sliprate dt h
  = (Ok (Source.mk
           (SourceOrReceiver.mk latitude longitude depth_in_m)
           ((sin (2 * delta) * sin lambd) * M0)
           ((- sin delta * cos lambd * sin (2 * phi)
             - sin (2 * delta) * sin phi ^ 2 * sin lambd) * M0)
           ((sin delta * cos lambd * sin (2 * phi)
             - sin (2 * delta) * cos phi ^ 2 * sin lambd) * M0)
           ((- sin lambd * sin phi * cos (2 * delta)
             - cos delta * cos lambd * cos phi) * M0)
           ((- cos phi * sin lambd * cos (2 * delta)
             + cos delta * cos lambd * sin phi) * M0)
           ((- sin delta * cos lambd * cos (2 * phi)
             - sin (2 * delta) * sin (2 * phi) * sin lambd / 2) * M0)
           time_shift (option_map (mk_ndarray h) sliprate) dt),
     match sliprate with Some _ => S h | None => h end).
Proof.
  intros. unfold Source.from_strike_dip_rake. rewrite Source_init_Ok. reflexivity.
Qed.

(** X4.  The moment tensor is linear in the scalar moment: the tensor for
    [M0] is [M0] times the tensor for the scalar moment 1. *)
Theorem from_strike_dip_rake_linear_in_M0 :
  forall latitude longitude depth_in_m strike dip rake M0 time_shift sliprate
         dt h,
    exists s s1 h',
      Source.from_strike_dip_rake latitude longitude depth_in_m strike dip
                                  rake M0 time_shift sliprate dt h
      = (Ok s, h')
      /\ Source.from_strike_dip_rake latitude longitude depth_in_m strike dip
                                     rake 1 time_shift sliprate dt h
         = (Ok s1, h')
      /\ Source.tensor s = map (fun m => M0 * m) (Source.tensor s1)
      /\ Source.tensor_voigt s = map (fun m => M0 * m) (Source.tensor_voigt s1).
Proof.
  intros. rewrite !from_strike_dip_rake_Ok.
  eexists; eexists; eexists.
  split; [reflexivity|]. split; [reflexivity|].
  unfold Source.tensor, Source.tensor_voigt. simpl.
  split; repeat (f_equal; try ring).
Qed.

(** ** The source time function: resampling *)


(** ** Equality, further *)

Lemma negb_eq_ne (self other : instance) (b : bool) :
  __eq__ self other = Ok b -> __ne__ self other = Ok (negb b).
Proof. intros E. unfold __ne__. now rewrite E. Qed.

Lemma Receiver_eq_returns (r1 r2 : Receiver.t) :
  exists b, __eq__ (a_Receiver r1) (a_Receiver r2) = Ok b.
Proof.
  destruct r1 as [[lat1 lon1 dep1] net1 sta1], r2 as [[lat2 lon2 dep2] net2 sta2].
  unfold __eq__, dict_equal. simpl.
  destruct (np.float_eqb lat1 lat2); [|now exists false].
  destruct (np.float_eqb lon1 lon2); [|now exists false].
  destruct dep1 as [d1|], dep2 as [d2|]; simpl; try (now exists false).
  - destruct (np.float_eqb d1 d2); [|now exists false].
    destruct (String.eqb net1 net2); [|now exists false].
    destruct (String.eqb sta1 sta2); eexists; reflexivity.
  - destruct (String.eqb net1 net2); [|now exists false].
    destruct (String.eqb sta1 sta2); eexists; reflexivity.
Qed.

Lemma ForceSource_eq_returns (f1 f2 : ForceSource.t) :
  exists b, __eq__ (a_ForceSource f1) (a_ForceSource f2) = Ok b.
Proof.
  destruct f1 as [[lat1 lon1 dep1] r1 t1 p1], f2 as [[lat2 lon2 dep2] r2 t2 p2].
  unfold __eq__, dict_equal. simpl.
  destruct (np.float_eqb lat1 lat2); [|now exists false].
  destruct (np.float_eqb lon1 lon2); [|now exists false].
  destruct dep1 as [d1|], dep2 as [d2|]; simpl; try (now exists false).
  - destruct (np.float_eqb d1 d2); [|now exists false].
    destruct (np.float_eqb r1 r2); [|now exists false].
    destruct (np.float_eqb t1 t2); [|now exists false].
    destruct (np.float_eqb p1 p2); eexists; reflexivity.
  - destruct (np.float_eqb r1 r2); [|now exists false].
    destruct (np.float_eqb t1 t2); [|now exists false].
    destruct (np.float_eqb p1 p2); eexists; reflexivity.
Qed.

(** X12.  On receivers and on force sources [==] and [!=] always return:
    [==] is [True] exactly when all attributes (coordinates, depth, and
    network and station, or the three force components) are equal, and
    [!=] is its negation. *)
Theorem eq_exact_on_receivers_and_forces :
  (forall r1 r2 : Receiver.t,
      exists b,
        __eq__ (a_Receiver r1) (a_Receiver r2) = Ok b
        /\ __ne__ (a_Receiver r1) (a_Receiver r2) = Ok (negb b)
        /\ (b = true <-> r1 = r2))
  /\ (forall f1 f2 : ForceSource.t,
         exists b,
           __eq__ (a_ForceSource f1) (a_ForceSource f2) = Ok b
           /\ __ne__ (a_ForceSource f1) (a_ForceSource f2) = Ok (negb b)
           /\ (b = true <-> f1 = f2)).
Proof.
  split.
  - intros r1 r2. destruct (Receiver_eq_returns r1 r2) as [b E].
    exists b. split; [exact E|]. split; [now apply negb_eq_ne|].
    rewrite <- Receiver_eq_iff, E. split; congruence.
  - intros f1 f2. destruct (ForceSource_eq_returns f1 f2) as [b E].
    exists b. split; [exact E|]. split; [now apply negb_eq_ne|].
    rewrite <- ForceSource_eq_iff, E. split; congruence.
Qed.

(** X13.  Two sources without source time function are [==] exactly when
    all their attributes are equal. *)
Theorem eq_exact_on_sources_without_sliprate :
  forall s1 s2 : Source.t,
    Source.sliprate s1 = None -> Source.sliprate s2 = None ->
    (__eq__ (a_Source s1) (a_Source s2) = Ok true <-> s1 = s2)
    /\ (s1 <> s2 -> __eq__ (a_Source s1) (a_Source s2) = Ok false).
Proof.
  intros s1 s2 H1 H2.
  pose proof (Source_eq_iff_no_sliprate s1 s2 H1 H2) as Hiff.
  split; [exact Hiff|]. intros Hne.
  destruct s1 as [[lat1 lon1 dep1] rr1 tt1 pp1 rt1 rp1 tp1 ts1 sl1 d1].
  destruct s2 as [[lat2 lon2 dep2] rr2 tt2 pp2 rt2 rp2 tp2 ts2 sl2 d2].
  simpl in H1, H2. subst sl1 sl2.
  destruct (__eq__ _ _) as [[|]|e] eqn:E in |- *; [|reflexivity|].
  - exfalso. apply Hne. now apply Hiff.
  - exfalso. revert E. unfold __eq__, dict_equal. simpl.
    repeat match goal with
           | |- context [np.float_eqb ?u ?v] => destruct (np.float_eqb u v)
           | |- context [of_option VFloat ?o] => destruct o; simpl
           end; discriminate.
Qed.

Lemma eq_exact_on_sources_without_sliprate_witness :
  (__eq__ (a_Source plain_source) (a_Source northern_source) = Ok true
   <-> plain_source = northern_source)
  /\ __eq__ (a_Source plain_source) (a_Source northern_source) = Ok false
  /\ __eq__ (a_Source plain_source) (a_Source plain_source) = Ok true.
Proof.
  destruct (eq_exact_on_sources_without_sliprate plain_source northern_source
              eq_refl eq_refl) as [Hiff Hne].
  split; [exact Hiff|]. split.
  - apply Hne. intros E.
    apply (f_equal (fun s => SourceOrReceiver.latitude (Source.base s))) in E.
    simpl in E. lra.
  - apply (eq_exact_on_sources_without_sliprate plain_source plain_source
             eq_refl eq_refl).
    reflexivity.
Defined.

(** X14.  Objects of different classes are never equal, whatever their
    attributes: [==] is [False] and [!=] is [True]. *)
Theorem eq_False_across_classes :
  forall self other : instance,
    type self <> type other ->
    __eq__ self other = Ok false /\ __ne__ self other = Ok true.
Proof.
  intros self other H.
  pose proof (eq_other_class self other H) as E.
  split; [exact E|]. now apply (negb_eq_ne self other false).
Qed.

(** A receiver and a force source at the same place. *)
Lemma eq_False_across_classes_witness :
  __eq__ (a_Receiver (Receiver.__init__ 0 0 None None None))
         (a_ForceSource (ForceSource.__init__ 0 0 None 0 0 0)) = Ok false
  /\ __ne__ (a_Receiver (Receiver.__init__ 0 0 None None None))
            (a_ForceSource (ForceSource.__init__ 0 0 None 0 0 0)) = Ok true.
Proof.
  apply eq_False_across_classes. simpl. discriminate.
Defined.

(** X15.  Every object is [==] to itself, a source with a sliprate of any
    length included: its array is then compared with itself. *)
Theorem eq_reflexive :
  forall o : instance, __eq__ o o = Ok true /\ __ne__ o o = Ok false.
Proof.
  intros o.
  assert (E : __eq__ o o = Ok true).
  { destruct o as [s|f|r].
    - apply Source_eq_self.
    - now apply ForceSource_eq_iff.
    - now apply Receiver_eq_iff. }
  split; [exact E|]. now apply (negb_eq_ne o o true).
Qed.

(** ** The decorator [_purge_duplicates] *)

Lemma contains_Receiver (l : list Receiver.t) (r : Receiver.t) :
  contains a_Receiver l r
  = Ok (if in_dec Receiver_eq_dec r l then true else false).
Proof.
  induction l as [|el l IH]; [reflexivity|].
  cbn [contains].
  destruct (Receiver_eq_returns r el) as [b E]. rewrite E.
  assert (Hb : b = true <-> r = el).
  { rewrite <- Receiver_eq_iff, E. split; congruence. }
  destruct b.
  - assert (r = el) by now apply Hb. subst el.
    destruct (in_dec Receiver_eq_dec r (r :: l)) as [_|N]; [reflexivity|].
    exfalso. apply N. now left.
  - rewrite IH.
    assert (Hne : r <> el) by (intros H; apply Hb in H; discriminate).
    destruct (in_dec Receiver_eq_dec r l) as [I|N],
             (in_dec Receiver_eq_dec r (el :: l)) as [I'|N']; try reflexivity.
    + exfalso. apply N'. now right.
    + exfalso. destruct I' as [->|I']; [now apply Hne|now apply N].
Qed.

Lemma purge_Receiver (l : list Receiver.t) :
  forall new_list, purge a_Receiver l new_list = Return (new_list ++ unseen new_list l).
Proof.
  induction l as [|x l IH]; intros new_list.
  - simpl. now rewrite app_nil_r.
  - cbn [purge unseen]. rewrite contains_Receiver.
    destruct (in_dec Receiver_eq_dec x new_list) as [I|N].
    + apply IH.
    + rewrite IH, <- app_assoc. reflexivity.
Qed.

Lemma In_unseen (l : list Receiver.t) :
  forall seen r, In r (unseen seen l) <-> In r l /\ ~ In r seen.
Proof.
  induction l as [|x l IH]; intros seen r.
  - simpl. tauto.
  - cbn [unseen]. destruct (in_dec Receiver_eq_dec x seen) as [I|N].
    + rewrite IH. simpl. split.
      * intros [H1 H2]. auto.
      * intros [[->|H1] H2]; [contradiction|auto].
    + simpl. rewrite IH, in_app_iff. simpl. split.
      * intros [->|[H1 H2]]; [auto|]. split; [auto|]. intros H. apply H2. auto.
      * intros [[->|H1] H2]; [auto|].
        destruct (Receiver_eq_dec x r) as [->|Hne]; [auto|].
        right. split; [assumption|]. intros [H|[H|[]]]; auto.
Qed.

Lemma NoDup_unseen (l : list Receiver.t) :
  forall seen, NoDup (unseen seen l).
Proof.
  induction l as [|x l IH]; intros seen; [constructor|].
  cbn [unseen]. destruct (in_dec Receiver_eq_dec x seen) as [I|N]; [apply IH|].
  constructor; [|apply IH].
  rewrite In_unseen, in_app_iff. simpl. intros [_ H]. apply H. auto.
Qed.

(** [unseen] looks at the members of [seen] only. *)
Lemma unseen_ext (l : list Receiver.t) :
  forall seen seen', (forall r, In r seen <-> In r seen') ->
                     unseen seen l = unseen seen' l.
Proof.
  induction l as [|x l IH]; intros seen seen' H; [reflexivity|].
  cbn [unseen].
  destruct (in_dec Receiver_eq_dec x seen) as [I|N],
           (in_dec Receiver_eq_dec x seen') as [I'|N'].
  - now apply IH.
  - exfalso. apply N'. now apply H.
  - exfalso. apply N. now apply H.
  - f_equal. apply IH. intros r. rewrite !in_app_iff, H. tauto.
Qed.

Lemma unseen_NoDup (l : list Receiver.t) :
  forall seen, NoDup l -> (forall r, In r l -> ~ In r seen) ->
               unseen seen l = l.
Proof.
  induction l as [|x l IH]; intros seen Hnd Hdis; [reflexivity|].
  cbn [unseen]. inversion Hnd as [|? ? Hx Hnd']; subst.
  destruct (in_dec Receiver_eq_dec x seen) as [I|N].
  - exfalso. apply (Hdis x); [now left|assumption].
  - f_equal. apply IH; [assumption|].
    intros r Hr. rewrite in_app_iff. simpl. intros [H|[->|[]]].
    + apply (Hdis r); [now right|assumption].
    + contradiction.
Qed.

Lemma unseen_app (l1 l2 : list Receiver.t) :
  forall seen, unseen seen (l1 ++ l2)
               = unseen seen l1 ++ unseen (seen ++ l1) l2.
Proof.
  induction l1 as [|x l1 IH]; intros seen.
  - simpl. now rewrite app_nil_r.
  - cbn [app unseen]. destruct (in_dec Receiver_eq_dec x seen) as [I|N].
    + rewrite IH. f_equal. apply unseen_ext.
      intros r. rewrite !in_app_iff. simpl. split; [tauto|].
      intros [H|[->|H]]; auto.
    + cbn [app]. f_equal. rewrite IH, <- app_assoc. reflexivity.
Qed.

Lemma unseen_unseen (l : list Receiver.t) :
  forall seen seen', (forall r, In r seen' -> In r seen) ->
                     unseen seen (unseen seen' l) = unseen seen l.
Proof.
  induction l as [|x l IH]; intros seen seen' Hsub; [reflexivity|].
  cbn [unseen].
  destruct (in_dec Receiver_eq_dec x seen') as [I'|N'].
  - destruct (in_dec Receiver_eq_dec x seen) as [I|N].
    + now apply IH.
    + exfalso. apply N. now apply Hsub.
  - cbn [unseen]. destruct (in_dec Receiver_eq_dec x seen) as [I|N].
    + apply IH. intros r. rewrite in_app_iff. simpl.
      intros [H|[->|[]]]; auto.
    + f_equal. apply IH. intros r. rewrite !in_app_iff. simpl.
      intros [H|H]; auto.
Qed.

(** Decides the membership tests of [unseen] on a list of given receivers. *)
Ltac decide_seen :=
  cbn [unseen map concat app obspy.stations obspy.network_code];
  match goal with
  | |- context [in_dec Receiver_eq_dec ?x ?l] =>
      destruct (in_dec Receiver_eq_dec x l);
      try solve [exfalso; simpl in *; intuition congruence]
  end.

(** X16.  On a list of receivers the wrapper of [_purge_duplicates] never
    raises and returns the first occurrences, in their order: an item is
    kept exactly when no equal item comes before it. *)
Theorem purge_duplicates_first_occurrences :
  forall (B : Type) (f : B -> outcome (list Receiver.t)) (args : B),
    match f args with
    | Return ret_val =>
        _purge_duplicates a_Receiver f args = Return (first_occurrences ret_val)
    | Fail e => _purge_duplicates a_Receiver f args = Fail e
    end.
Proof.
  intros B f args. unfold _purge_duplicates.
  destruct (f args) as [ret_val|e]; [|reflexivity].
  now rewrite purge_Receiver.
Qed.

(** X17.  What the wrapper returns for a list of receivers has no
    duplicates and the same members as the list, is not longer, and is
    returned unchanged when purged again. *)
Theorem purge_duplicates_no_duplicates :
  forall ret_val : list Receiver.t,
    exists new_list,
      purge a_Receiver ret_val [] = Return new_list
      /\ NoDup new_list
      /\ (forall r, In r new_list <-> In r ret_val)
      /\ (length new_list <= length ret_val)%nat
      /\ purge a_Receiver new_list [] = Return new_list.
Proof.
  intros ret_val. exists (unseen [] ret_val).
  split; [now rewrite purge_Receiver|].
  assert (Hnd : NoDup (unseen [] ret_val)) by apply NoDup_unseen.
  assert (Hin : forall r, In r (unseen [] ret_val) <-> In r ret_val).
  { intros r. rewrite In_unseen. simpl. tauto. }
  split; [exact Hnd|]. split; [exact Hin|]. split.
  - apply NoDup_incl_length; [exact Hnd|]. intros r. apply Hin.
  - rewrite purge_Receiver. simpl. f_equal.
    apply unseen_NoDup; [exact Hnd|]. intros r _ [].
Qed.

(** ** Receiver.parse on ObsPy objects *)

Lemma purge_single (r : Receiver.t) : purge a_Receiver [r] [] = Return [r].
Proof. now rewrite purge_Receiver. Qed.

Lemma nodup_all_equal (c : R * R) (l : list (R * R)) :
  l <> [] -> Forall (fun x => x = c) l -> nodup coordinates_eq_dec l = [c].
Proof.
  induction l as [|x l IH]; intros Hne Hall; [contradiction|].
  inversion Hall as [|? ? Hx Hl]; subst.
  cbn [nodup]. destruct l as [|y l].
  - destruct (in_dec coordinates_eq_dec c []) as [[]|_]. reflexivity.
  - destruct (in_dec coordinates_eq_dec c (y :: l)) as [_|N].
    + apply IH; [discriminate|assumption].
    + exfalso. apply N. inversion Hl; subst. now left.
Qed.

Lemma coordinates_set_agree (s : obspy.Station) :
  obspy.channels s <> [] -> channels_agree s ->
  coordinates_set (obspy.channels s) = [station_coordinates s].
Proof.
  intros Hne Hag. unfold coordinates_set.
  apply nodup_all_equal.
  - destruct (obspy.channels s); [contradiction|discriminate].
  - unfold channels_agree in Hag. rewrite Forall_forall in *.
    intros x Hx. apply in_map_iff in Hx. destruct Hx as (c & <- & Hc).
    now apply Hag.
Qed.

Lemma coordinates_set_disagree (s : obspy.Station) :
  ~ channels_agree s ->
  forall c, coordinates_set (obspy.channels s) <> [c].
Proof.
  intros Hnot c E. apply Hnot. unfold channels_agree.
  assert (Hall : forall ch, In ch (obspy.channels s) ->
                   (obspy.channel_latitude ch, obspy.channel_longitude ch) = c).
  { intros ch Hch.
    assert (Hin : In (obspy.channel_latitude ch, obspy.channel_longitude ch)
                     (coordinates_set (obspy.channels s))).
    { unfold coordinates_set. apply nodup_In. apply in_map_iff. now exists ch. }
    rewrite E in Hin. destruct Hin as [<-|[]]. reflexivity. }
  apply Forall_forall. intros ch Hch. rewrite (Hall ch Hch).
  unfold station_coordinates.
  destruct (obspy.channels s) as [|c0 cs] eqn:Hcs; [destruct Hch|].
  symmetry. apply Hall. now left.
Qed.

Lemma parse_Station_agree (s : obspy.Station) (network_code : string) :
  channels_agree s ->
  parse_Station (s, Some network_code)
  = Return [station_receiver network_code s].
Proof.
  intros Hag.
  unfold parse_Station, _purge_duplicates, parse_Station_body.
  unfold station_receiver.
  destruct (obspy.channels s) as [|c0 cs] eqn:Hcs.
  - unfold station_coordinates. rewrite Hcs. cbn [fst snd]. apply purge_single.
  - rewrite <- Hcs, coordinates_set_agree; [|rewrite Hcs; discriminate|exact Hag].
    apply purge_single.
Qed.

Lemma parse_Station_disagree (s : obspy.Station) (network_code : string) :
  ~ channels_agree s ->
  parse_Station (s, Some network_code)
  = Fail (ReceiverParseError
            (not_identical_message network_code (obspy.station_code s))).
Proof.
  intros Hnot.
  unfold parse_Station, _purge_duplicates, parse_Station_body.
  destruct (obspy.channels s) as [|c0 cs] eqn:Hcs.
  - exfalso. apply Hnot. unfold channels_agree. rewrite Hcs. constructor.
  - rewrite <- Hcs.
    pose proof (coordinates_set_disagree s Hnot) as Hset.
    destruct (coordinates_set (obspy.channels s)) as [|c [|c' l]];
      try reflexivity.
    exfalso. now apply (Hset c).
Qed.

(** X18.  [Receiver.parse] of a station whose channels are all at the same
    place (or that has no channel) returns one receiver: at the place of the
    channels, the station's own coordinates counting only when it has no
    channel, with the given network code and the station's code. *)
Theorem parse_Station_channels_agree :
  forall (s : obspy.Station) (network_code : string),
    channels_agree s ->
    Receiver_parse (a_Station s) (Some network_code)
    = Return [station_receiver network_code s].
Proof.
  intros s network_code Hag. now apply parse_Station_agree.
Qed.

Lemma parse_Station_channels_agree_witness :
  Receiver_parse (a_Station three_channel_station) (Some "GR"%string)
  = Return [Receiver.mk (SourceOrReceiver.mk 1 2 None) "GR" "FUR"].
Proof.
  assert (Hag : channels_agree three_channel_station).
  { unfold channels_agree. simpl. repeat constructor. }
  exact (parse_Station_channels_agree three_channel_station "GR" Hag).
Defined.

(** X19.  [Receiver.parse] of a station raises [ReceiverParseError]: with
    the message "network_code must be given." when no network code is given,
    whatever the station and its channels; and, a network code given, when
    two of its channels are at different places, the message then naming
    network and station. *)
Theorem parse_Station_raises :
  (forall s : obspy.Station,
      Receiver_parse (a_Station s) None
      = Fail (ReceiverParseError "network_code must be given."))
  /\ (forall (s : obspy.Station) (network_code : string),
         ~ channels_agree s ->
         Receiver_parse (a_Station s) (Some network_code)
         = Fail (ReceiverParseError
                   ("The coordinates of the channels of station '"
                    ++ network_code ++ "." ++ obspy.station_code s
                    ++ "' are not identical.")%string)).
Proof.
  split; [reflexivity|].
  intros s network_code Hnot.
  exact (parse_Station_disagree s network_code Hnot).
Qed.

Lemma parse_Station_raises_witness :
  Receiver_parse (a_Station three_channel_station) None
  = Fail (ReceiverParseError "network_code must be given.")
  /\ Receiver_parse (a_Station split_station) None
     = Fail (ReceiverParseError "network_code must be given.")
  /\ Receiver_parse (a_Station split_station) (Some "GR"%string)
     = Fail (ReceiverParseError
               "The coordinates of the channels of station 'GR.FUR' are not identical.").
Proof.
  assert (Hnot : ~ channels_agree split_station).
  { unfold channels_agree. simpl. intros H.
    inversion H as [|? ? _ H']; subst. inversion H' as [|? ? E _]; subst.
    injection E as E. lra. }
  split; [exact (proj1 parse_Station_raises three_channel_station)|].
  split; [exact (proj1 parse_Station_raises split_station)|].
  exact (proj2 parse_Station_raises split_station "GR"%string Hnot).
Defined.

Lemma extend_each_returns {A : Type} (parse : A -> outcome (list Receiver.t))
    (g : A -> list Receiver.t) (xs : list A) :
  Forall (fun x => parse x = Return (g x)) xs ->
  forall receivers,
    extend_each parse xs receivers = Return (receivers ++ concat (map g xs)).
Proof.
  induction xs as [|x xs IH]; intros Hall receivers.
  - simpl. now rewrite app_nil_r.
  - inversion Hall as [|? ? Hx Hxs]; subst.
    cbn [extend_each map concat]. rewrite Hx. cbn [outcome_bind].
    rewrite IH by assumption. now rewrite app_assoc.
Qed.

Lemma extend_each_fails {A : Type} (parse : A -> outcome (list Receiver.t))
    (xs : list A) (P : exception -> Prop) :
  (forall x e, parse x = Fail e -> P e) ->
  (exists x e, In x xs /\ parse x = Fail e) ->
  forall receivers, exists e, extend_each parse xs receivers = Fail e /\ P e.
Proof.
  intros HP. induction xs as [|x xs IH]; intros (y & e & Hin & Hy) receivers.
  - destruct Hin.
  - cbn [extend_each]. destruct (parse x) as [r|e'] eqn:Hx.
    + cbn [outcome_bind]. apply IH. destruct Hin as [->|Hin].
      * rewrite Hx in Hy. discriminate.
      * now exists y, e.
    + exists e'. split; [reflexivity|]. now apply (HP x).
Qed.

Lemma concat_map_single {A B : Type} (g : A -> B) (xs : list A) :
  concat (map (fun x => [g x]) xs) = map g xs.
Proof. induction xs as [|x xs IH]; [reflexivity|]. simpl. now rewrite IH. Qed.

(** X20.  [Receiver.parse] of a network whose stations each have their
    channels at one place returns one receiver per station, with the
    network's code, in the order of the stations and without the repetitions
    of an earlier one. *)
Theorem parse_Network_returns :
  forall (n : obspy.Network) (network_code : option string),
    Forall channels_agree (obspy.stations n) ->
    Receiver_parse (a_Network n) network_code
    = Return (first_occurrences
                (map (station_receiver (obspy.network_code n))
                     (obspy.stations n))).
Proof.
  intros n network_code Hall.
  unfold Receiver_parse, parse_Network, _purge_duplicates, parse_Network_body.
  rewrite (extend_each_returns _
             (fun s => [station_receiver (obspy.network_code n) s])).
  - rewrite concat_map_single. cbn [app]. now rewrite purge_Receiver.
  - rewrite Forall_forall in *. intros s Hs.
    apply (parse_Station_agree s (obspy.network_code n)).
    now apply Hall.
Qed.

(** A network that lists the station of [three_channel_station] twice. *)
Lemma parse_Network_returns_witness :
  Receiver_parse
    (a_Network (obspy.mk_Network "GR" [three_channel_station;
                                       three_channel_station]))
    None
  = Return [Receiver.mk (SourceOrReceiver.mk 1 2 None) "GR" "FUR"].
Proof.
  assert (Hag : channels_agree three_channel_station).
  { unfold channels_agree. simpl. repeat constructor. }
  assert (Hall : Forall channels_agree
                   (obspy.stations
                      (obspy.mk_Network "GR" [three_channel_station;
                                              three_channel_station]))).
  { simpl. repeat constructor; exact Hag. }
  rewrite (parse_Network_returns _ None Hall).
  unfold first_occurrences. cbn [obspy.stations obspy.network_code].
  repeat decide_seen. reflexivity.
Defined.

Lemma parse_Station_fails_with (x : obspy.Station * option string) (e : exception) :
  parse_Station x = Fail e -> exists message, e = ReceiverParseError message.
Proof.
  destruct x as [s nc].
  unfold parse_Station, _purge_duplicates, parse_Station_body.
  destruct nc as [code|]; [|intros [= <-]; eexists; reflexivity].
  destruct (obspy.channels s) as [|c0 cs].
  - rewrite purge_Receiver. discriminate.
  - destruct (coordinates_set (c0 :: cs)) as [|c [|c' l]];
      [ | rewrite purge_Receiver; discriminate | ];
      intros [= <-]; eexists; reflexivity.
Qed.

(** X21.  One station whose channels are at different places makes
    [Receiver.parse] of the whole network, and of an inventory holding the
    network, raise [ReceiverParseError]: no receiver is returned. *)
Theorem parse_Network_raises :
  forall (n : obspy.Network) (s : obspy.Station) (before after : list obspy.Network)
         (network_code : option string),
    In s (obspy.stations n) -> ~ channels_agree s ->
    (exists message,
        Receiver_parse (a_Network n) network_code
        = Fail (ReceiverParseError message))
    /\ (exists message,
           Receiver_parse (an_Inventory (before ++ n :: after)) network_code
           = Fail (ReceiverParseError message)).
Proof.
  intros n s before after network_code Hin Hnot.
  assert (Hn : exists message, parse_Network n = Fail (ReceiverParseError message)).
  { unfold parse_Network, _purge_duplicates, parse_Network_body.
    destruct (extend_each_fails
                (fun station => parse_Station (station, Some (obspy.network_code n)))
                (obspy.stations n)
                (fun e => exists message, e = ReceiverParseError message))
      with (receivers := @nil Receiver.t) as (e & -> & message & ->).
    - intros x e. apply parse_Station_fails_with.
    - exists s. eexists. split; [exact Hin|].
      apply (parse_Station_disagree s (obspy.network_code n) Hnot).
    - now exists message. }
  split; [exact Hn|].
  unfold Receiver_parse, parse_Inventory, _purge_duplicates, parse_Inventory_body.
  destruct (extend_each_fails parse_Network (before ++ n :: after)
              (fun e => exists message, e = ReceiverParseError message))
    with (receivers := @nil Receiver.t) as (e & -> & message & ->).
  - intros x e. unfold parse_Network, _purge_duplicates, parse_Network_body.
    destruct (extend_each _ _ _) as [r|e'] eqn:E.
    + rewrite purge_Receiver. discriminate.
    + intros [= <-].
      destruct (extend_each_fails
                  (fun station => parse_Station (station, Some (obspy.network_code x)))
                  (obspy.stations x)
                  (fun e => exists message, e = ReceiverParseError message))
        with (receivers := @nil Receiver.t) as (e & E' & Hmsg).
      * intros y e. apply parse_Station_fails_with.
      * clear - E. revert E. generalize (@nil Receiver.t).
        induction (obspy.stations x) as [|y ys IH]; intros acc E.
        -- discriminate.
        -- cbn [extend_each] in E.
           destruct (parse_Station (y, Some (obspy.network_code x))) as [r|e] eqn:Hy.
           ++ cbn [outcome_bind] in E. destruct (IH _ E) as (z & e & Hz & Hze).
              exists z, e. split; [now right|assumption].
           ++ exists y, e. split; [now left|assumption].
      * rewrite E in E'. injection E' as <-. exact Hmsg.
  - destruct Hn as [message Hn]. exists n. eexists.
    split; [apply in_elt|exact Hn].
  - now exists message.
Qed.

Lemma parse_Network_raises_witness :
  (exists message,
      Receiver_parse (a_Network (obspy.mk_Network "GR" [split_station])) None
      = Fail (ReceiverParseError message))
  /\ (exists message,
         Receiver_parse
           (an_Inventory ([] ++ obspy.mk_Network "GR" [split_station] :: []))
           None
         = Fail (ReceiverParseError message)).
Proof.
  assert (Hnot : ~ channels_agree split_station).
  { unfold channels_agree. simpl. intros H.
    inversion H as [|? ? _ H']; subst. inversion H' as [|? ? E _]; subst.
    injection E as E. lra. }
  assert (Hin : In split_station
                   (obspy.stations (obspy.mk_Network "GR" [split_station]))).
  { simpl. now left. }
  exact (parse_Network_raises (obspy.mk_Network "GR" [split_station])
           split_station [] [] None Hin Hnot).
Defined.

Lemma parse_Network_agree (n : obspy.Network) :
  Forall channels_agree (obspy.stations n) ->
  parse_Network n
  = Return (first_occurrences
              (map (station_receiver (obspy.network_code n)) (obspy.stations n))).
Proof.
  intros Hall.
  unfold parse_Network, _purge_duplicates, parse_Network_body.
  rewrite (extend_each_returns _
             (fun s => [station_receiver (obspy.network_code n) s])).
  - rewrite concat_map_single. cbn [app]. now rewrite purge_Receiver.
  - rewrite Forall_forall in *. intros s Hs.
    apply (parse_Station_agree s (obspy.network_code n)).
    now apply Hall.
Qed.

Lemma first_occurrences_concat {A : Type} (g : A -> list Receiver.t) (xs : list A) :
  forall seen,
    unseen seen (concat (map (fun x => first_occurrences (g x)) xs))
    = unseen seen (concat (map g xs)).
Proof.
  induction xs as [|x xs IH]; intros seen; [reflexivity|].
  cbn [map concat]. rewrite !unseen_app. f_equal.
  - unfold first_occurrences. apply unseen_unseen. intros r [].
  - rewrite IH. apply unseen_ext. intros r. rewrite !in_app_iff.
    unfold first_occurrences. rewrite In_unseen. simpl. tauto.
Qed.

(** X22.  [Receiver.parse] of an inventory whose stations each have their
    channels at one place returns the receivers of all stations of all
    networks, in order, each once: purging the results network by network
    and then once more gives what purging once would give. *)
Theorem parse_Inventory_returns :
  forall (networks : list obspy.Network) (network_code : option string),
    Forall (fun n => Forall channels_agree (obspy.stations n)) networks ->
    Receiver_parse (an_Inventory networks) network_code
    = Return (first_occurrences
                (concat
                   (map (fun n => map (station_receiver (obspy.network_code n))
                                      (obspy.stations n))
                        networks))).
Proof.
  intros networks network_code Hall.
  unfold Receiver_parse, parse_Inventory, _purge_duplicates, parse_Inventory_body.
  rewrite (extend_each_returns _
             (fun n => first_occurrences
                         (map (station_receiver (obspy.network_code n))
                              (obspy.stations n)))).
  - cbn [app]. rewrite purge_Receiver. cbn [app]. f_equal.
    apply (first_occurrences_concat
             (fun n => map (station_receiver (obspy.network_code n))
                           (obspy.stations n))).
  - rewrite Forall_forall in *. intros n Hn. apply parse_Network_agree.
    now apply Hall.
Qed.

(** Two networks listing the same station under the same code. *)
Lemma parse_Inventory_returns_witness :
  Receiver_parse
    (an_Inventory [obspy.mk_Network "GR" [three_channel_station];
                   obspy.mk_Network "GR" [three_channel_station]])
    None
  = Return [Receiver.mk (SourceOrReceiver.mk 1 2 None) "GR" "FUR"].
Proof.
  assert (Hag : channels_agree three_channel_station).
  { unfold channels_agree. simpl. repeat constructor. }
  assert (Hall : Forall (fun n => Forall channels_agree (obspy.stations n))
                   [obspy.mk_Network "GR" [three_channel_station];
                    obspy.mk_Network "GR" [three_channel_station]]).
  { repeat constructor; exact Hag. }
  rewrite (parse_Inventory_returns _ None Hall).
  unfold first_occurrences. cbn [obspy.stations obspy.network_code].
  repeat decide_seen. reflexivity.
Defined.

Lemma float_eqb_false (u v : R) : u <> v -> np.float_eqb u v = false.
Proof.
  intros H. unfold np.float_eqb. destruct (Req_dec_T u v); [contradiction|reflexivity].
Qed.

Lemma parse_Trace_has_coordinates (tr : obspy.Trace) :
  has_coordinates tr -> parse_Trace tr = Return [trace_receiver tr].
Proof.
  intros (sac & Hsac & Hla & Hlo).
  unfold parse_Trace, _purge_duplicates, parse_Trace_body, trace_receiver.
  rewrite Hsac, !float_eqb_false by congruence.
  cbn [orb]. apply purge_single.
Qed.

Lemma parse_Trace_no_coordinates (tr : obspy.Trace) :
  ~ has_coordinates tr ->
  exists message, parse_Trace tr = Fail (ReceiverParseError message).
Proof.
  intros Hnot.
  unfold parse_Trace, _purge_duplicates, parse_Trace_body.
  destruct (obspy.stats_sac tr) as [sac|] eqn:Hsac; [|eexists; reflexivity].
  destruct (np.float_eqb (-12345) (obspy.stla sac)) eqn:Ela;
    [eexists; reflexivity|].
  destruct (np.float_eqb (-12345) (obspy.stlo sac)) eqn:Elo;
    [eexists; reflexivity|].
  exfalso. apply Hnot. exists sac. split; [exact Hsac|].
  split; intros E.
  - rewrite E, float_eqb_refl in Ela. discriminate.
  - rewrite E, float_eqb_refl in Elo. discriminate.
Qed.

(** X23.  [Receiver.parse] of a stream whose traces all carry SAC
    coordinates returns one receiver per trace, purged: the traces of one
    station, its components, give one receiver. *)
Theorem parse_Stream_returns :
  forall (traces : list obspy.Trace) (network_code : option string),
    Forall has_coordinates traces ->
    Receiver_parse (a_Stream traces) network_code
    = Return (first_occurrences (map trace_receiver traces)).
Proof.
  intros traces network_code Hall.
  unfold Receiver_parse, parse_Stream, _purge_duplicates, parse_Stream_body.
  rewrite (extend_each_returns _ (fun tr => [trace_receiver tr])).
  - rewrite concat_map_single. cbn [app]. now rewrite purge_Receiver.
  - rewrite Forall_forall in *. intros tr Htr.
    apply parse_Trace_has_coordinates. now apply Hall.
Qed.

Lemma parse_Stream_returns_witness :
  Receiver_parse (a_Stream three_components) None
  = Return [Receiver.mk (SourceOrReceiver.mk 48 11 None) "GR" "FUR"].
Proof.
  assert (Hall : Forall has_coordinates three_components).
  { repeat constructor; eexists; (split; [reflexivity|]); simpl; split; lra. }
  rewrite (parse_Stream_returns three_components None Hall).
  unfold first_occurrences, three_components.
  repeat decide_seen. reflexivity.
Defined.

(** X24.  A trace without SAC header, or whose [stla] or [stlo] is SAC's
    undefined value -12345, makes [Receiver.parse] raise
    [ReceiverParseError], for the trace and for every stream that holds
    it. *)
Theorem parse_Trace_raises :
  forall (tr : obspy.Trace) (before after : list obspy.Trace)
         (network_code : option string),
    ~ has_coordinates tr ->
    (exists message,
        Receiver_parse (a_Trace tr) network_code
        = Fail (ReceiverParseError message))
    /\ (exists message,
           Receiver_parse (a_Stream (before ++ tr :: after)) network_code
           = Fail (ReceiverParseError message)).
Proof.
  intros tr before after network_code Hnot.
  pose proof (parse_Trace_no_coordinates tr Hnot) as Htr.
  split; [exact Htr|].
  unfold Receiver_parse, parse_Stream, _purge_duplicates, parse_Stream_body.
  destruct (extend_each_fails parse_Trace (before ++ tr :: after)
              (fun e => exists message, e = ReceiverParseError message))
    with (receivers := @nil Receiver.t) as (e & -> & message & ->).
  - intros x e. unfold parse_Trace, _purge_duplicates, parse_Trace_body.
    destruct (obspy.stats_sac x) as [sac|]; [|intros [= <-]; eexists; reflexivity].
    destruct (_ || _); [intros [= <-]; eexists; reflexivity|].
    rewrite purge_Receiver. discriminate.
  - destruct Htr as [message Htr]. exists tr. eexists.
    split; [apply in_elt|exact Htr].
  - now exists message.
Qed.

Lemma parse_Trace_raises_witness :
  (exists message,
      Receiver_parse
        (a_Trace (obspy.mk_Trace "GR.FUR..BHZ" "GR" "FUR"
                                 (Some (obspy.mk_SAC (-12345) 11))))
        None
      = Fail (ReceiverParseError message))
  /\ (exists message,
         Receiver_parse
           (a_Stream ([] ++ obspy.mk_Trace "GR.FUR..BHZ" "GR" "FUR"
                                           (Some (obspy.mk_SAC (-12345) 11))
                         :: []))
           None
         = Fail (ReceiverParseError message)).
Proof.
  apply parse_Trace_raises.
  intros (sac & Hsac & Hla & _). simpl in Hsac. injection Hsac as <-.
  apply Hla. reflexivity.
Defined.

(** X25.  [Receiver.parse] never returns a receiver twice, whatever the
    object parsed. *)
Theorem Receiver_parse_no_duplicates :
  forall (filename_or_obj : obspy_object) (network_code : option string)
         (receivers : list Receiver.t),
    Receiver_parse filename_or_obj network_code = Return receivers ->
    NoDup receivers.
Proof.
  assert (H : forall (B : Type) (f : B -> outcome (list Receiver.t)) x out,
             _purge_duplicates a_Receiver f x = Return out -> NoDup out).
  { intros B f x out. unfold _purge_duplicates.
    destruct (f x) as [l|e]; [|discriminate].
    rewrite purge_Receiver. intros [= <-]. apply NoDup_unseen. }
  intros [networks|n|s|traces|tr] network_code receivers;
    unfold Receiver_parse, parse_Inventory, parse_Network, parse_Station,
      parse_Stream, parse_Trace; apply H.
Qed.

Lemma three_components_receivers :
  Receiver_parse (a_Stream three_components) None
  = Return [Receiver.mk (SourceOrReceiver.mk 48 11 None) "GR" "FUR"].
Proof.
  unfold Receiver_parse, parse_Stream, _purge_duplicates, parse_Stream_body.
  rewrite (extend_each_returns _ (fun tr => [trace_receiver tr])).
  - rewrite concat_map_single. cbn [app]. rewrite purge_Receiver. cbn [app].
    unfold three_components. repeat decide_seen. reflexivity.
  - repeat constructor; apply parse_Trace_has_coordinates;
      eexists; (split; [reflexivity|]); simpl; split; lra.
Qed.

Lemma Receiver_parse_no_duplicates_witness :
  NoDup [Receiver.mk (SourceOrReceiver.mk 48 11 None) "GR" "FUR"].
Proof.
  exact (Receiver_parse_no_duplicates (a_Stream three_components) None _
           three_components_receivers).
Defined.

(** ** Text files *)

Section FileProperties.

Variable float : string -> option R.

Lemma parse_stations_lines_returns (f : list string) :
  forall receivers out,
    parse_stations_lines float f receivers = Return out ->
    exists rs, out = receivers ++ rs /\ Forall2 (line_receiver float) f rs.
Proof.
  induction f as [|line f IH]; intros receivers out H.
  - injection H as <-. exists []. split; [now rewrite app_nil_r|constructor].
  - cbn [parse_stations_lines] in H.
    destruct (split line)
      as [|station [|network [|lat [|lon [|w5 [|w6 [|w7 ws]]]]]]] eqn:Hsplit;
      try discriminate.
    unfold py_float in H.
    destruct (float lat) as [la|] eqn:Hla; [|discriminate].
    destruct (float lon) as [lo|] eqn:Hlo; [|discriminate].
    cbn [outcome_bind] in H.
    destruct (IH _ _ H) as (rs & -> & Hrs).
    eexists (_ :: rs). split; [now rewrite <- app_assoc|].
    constructor; [|exact Hrs].
    exists station, network, lat, lon, w5, w6, la, lo.
    repeat split; try assumption.
    unfold Receiver.__init__, SourceOrReceiver.__init__.
    now rewrite !or_empty_spec.
Qed.

Lemma parse_stations_lines_fails (f : list string) :
  forall receivers e,
    parse_stations_lines float f receivers = Fail e -> e = Builtin ValueError.
Proof.
  induction f as [|line f IH]; intros receivers e H; [discriminate|].
  cbn [parse_stations_lines] in H.
  destruct (split line)
    as [|station [|network [|lat [|lon [|w5 [|w6 [|w7 ws]]]]]]];
    try (now injection H as <-).
  unfold py_float in H.
  destruct (float lat) as [la|]; [|now injection H as <-].
  destruct (float lon) as [lo|]; [|now injection H as <-].
  cbn [outcome_bind] in H. now apply (IH _ _ H).
Qed.

(** X26.  [_parse_stations_file] returns one receiver per line of the
    file, in the order of the lines and duplicates included: the first word
    of a line is the station, the second the network, the third and fourth
    the latitude and longitude; the last two of the six words are not
    used and the receiver has no depth. *)
Theorem parse_stations_file_line_by_line :
  forall (f : list string) (receivers : list Receiver.t),
    _parse_stations_file float f = Return receivers ->
    Forall2 (line_receiver float) f receivers
    /\ length receivers = length f.
Proof.
  intros f receivers H.
  destruct (parse_stations_lines_returns f [] receivers H) as (rs & -> & Hrs).
  cbn [app]. split; [exact Hrs|].
  symmetry. now apply (Forall2_length Hrs).
Qed.

(** X27.  [_parse_stations_file] raises [ValueError] as soon as one line
    has not exactly six words, an empty line at the end of the file
    included; no receiver is returned then. *)
Theorem parse_stations_file_bad_line :
  forall (f : list string) (line : string),
    In line f -> length (split line) <> 6%nat ->
    _parse_stations_file float f = Fail (Builtin ValueError).
Proof.
  intros f line Hin Hlen.
  destruct (_parse_stations_file float f) as [out|e] eqn:H.
  - exfalso. unfold _parse_stations_file in H.
    destruct (parse_stations_lines_returns f [] out H) as (rs & _ & Hrs).
    clear H. induction Hrs as [|l r f' rs' Hl Hrs IH]; [destruct Hin|].
    destruct Hin as [->|Hin]; [|now apply IH].
    destruct Hl as (station & network & lat & lon & w5 & w6 & la & lo & E & _).
    rewrite E in Hlen. now apply Hlen.
  - f_equal. now apply (parse_stations_lines_fails f [] e).
Qed.

Lemma readline_hd_tl (f : list string) :
  readline f = (hd EmptyString f, tl f).
Proof. destruct f; reflexivity. Qed.

Lemma read_float_returns (i : nat) (f f' : list string) (v : R) :
  read_float float i f = Return (v, f') ->
  f' = tl f /\ word_value float f 0 i v.
Proof.
  unfold read_float, word_value. rewrite readline_hd_tl.
  replace (nth 0 f EmptyString) with (hd EmptyString f) by now destruct f.
  unfold getitem, py_float.
  destruct (nth_error (split (hd EmptyString f)) i) as [w|]; [|discriminate].
  cbn [outcome_bind].
  destruct (float w) as [x|] eqn:Hw; [|discriminate].
  cbn [outcome_bind]. intros [= <- <-]. split; [reflexivity|].
  now exists w.
Qed.

Lemma read_float_fails (i : nat) (f : list string) (e : exception) :
  read_float float i f = Fail e -> e = IndexError \/ e = Builtin ValueError.
Proof.
  unfold read_float. rewrite readline_hd_tl. unfold getitem, py_float.
  destruct (nth_error (split (hd EmptyString f)) i) as [w|];
    [|intros [= <-]; now left].
  cbn [outcome_bind].
  destruct (float w) as [x|]; [discriminate|].
  cbn [outcome_bind]. intros [= <-]. now right.
Qed.

Lemma read_float_end (i : nat) : read_float float i [] = Fail IndexError.
Proof. unfold read_float. simpl. now destruct i. Qed.

Lemma word_value_tl (f : list string) (k i : nat) (v : R) :
  word_value float (tl f) k i v -> word_value float f (S k) i v.
Proof.
  unfold word_value. destruct f as [|l f]; [|exact (fun H => H)].
  simpl. now destruct k.
Qed.

End FileProperties.

Section CMTSOLUTION.

Variable float : string -> option R.

Ltac read_next H :=
  match type of H with
  | context [read_float float ?i ?f] =>
      let E := fresh "E" in
      destruct (read_float float i f) as [[? ?]|?] eqn:E;
      [ apply read_float_returns in E; destruct E as [-> E]
      | discriminate H ];
      cbn [outcome_bind] in H; rewrite ?readline_hd_tl in H
  end.

(** What a returning [read_CMTSOLUTION] has read, and where. *)
Lemma read_CMTSOLUTION_returns (f : list string) latitude longitude depth_in_m
    m_rr m_tt m_pp m_rt m_rp m_tp time_shift :
  read_CMTSOLUTION float f
  = Return (latitude, longitude, depth_in_m,
            (m_rr, m_tt, m_pp, m_rt, m_rp, m_tp), time_shift) ->
  exists depth rr tt pp rt rp tp,
    word_value float f 2 2 time_shift
    /\ word_value float f 4 1 latitude
    /\ word_value float f 5 1 longitude
    /\ word_value float f 6 1 depth
    /\ word_value float f 7 1 rr
    /\ word_value float f 8 1 tt
    /\ word_value float f 9 1 pp
    /\ word_value float f 10 1 rt
    /\ word_value float f 11 1 rp
    /\ word_value float f 12 1 tp
    /\ depth_in_m = depth * 1000
    /\ m_rr = rr / 10000000 /\ m_tt = tt / 10000000 /\ m_pp = pp / 10000000
    /\ m_rt = rt / 10000000 /\ m_rp = rp / 10000000 /\ m_tp = tp / 10000000.
Proof.
  intros H. unfold read_CMTSOLUTION in H. rewrite !readline_hd_tl in H.
  do 10 read_next H.
  injection H as <- <- <- <- <- <- <- <- <- <-.
  eexists; eexists; eexists; eexists; eexists; eexists; eexists.
  repeat (split; [repeat apply word_value_tl; eassumption|]).
  repeat split.
Qed.

Lemma word_value_length (f : list string) (k i : nat) (v : R) :
  word_value float f k i v -> (k < length f)%nat.
Proof.
  intros (w & Hw & _).
  destruct (le_lt_dec (length f) k) as [Hle|Hlt]; [|exact Hlt].
  rewrite nth_overflow in Hw by exact Hle.
  simpl in Hw. destruct i; discriminate.
Qed.

Lemma read_CMTSOLUTION_fails (f : list string) (e : exception) :
  read_CMTSOLUTION float f = Fail e -> e = IndexError \/ e = Builtin ValueError.
Proof.
  intros H. unfold read_CMTSOLUTION in H. rewrite !readline_hd_tl in H.
  repeat match type of H with
         | context [read_float float ?i ?f] =>
             let E := fresh "E" in
             destruct (read_float float i f) as [[? ?]|?] eqn:E;
             [ cbn [outcome_bind] in H; rewrite ?readline_hd_tl in H
             | cbn [outcome_bind] in H; injection H as <-;
               exact (read_float_fails float _ _ _ E) ]
         end.
  discriminate H.
Qed.

(** X28.  A source read by [from_CMTSOLUTION_file] has the latitude and
    longitude of lines 5 and 6, the depth of line 7 times 1000 (kilometres
    to metres), the six components of lines 8 to 13 divided by 1e7 (dyne
    centimetres to newton metres) and the time shift of line 3, each time
    the second word of the line (the third for the time shift); it has no
    sliprate and no [dt]. *)
Theorem from_CMTSOLUTION_file_returns :
  forall (f : list string) (h h' : heap) (s : Source.t),
    from_CMTSOLUTION_file float f h = (Return s, h') ->
    exists latitude longitude depth rr tt pp rt rp tp time_shift,
      word_value float f 2 2 time_shift
      /\ word_value float f 4 1 latitude
      /\ word_value float f 5 1 longitude
      /\ word_value float f 6 1 depth
      /\ word_value float f 7 1 rr
      /\ word_value float f 8 1 tt
      /\ word_value float f 9 1 pp
      /\ word_value float f 10 1 rt
      /\ word_value float f 11 1 rp
      /\ word_value float f 12 1 tp
      /\ s = Source.mk (SourceOrReceiver.mk latitude longitude
                                            (Some (depth * 1000)))
                       (rr / 10000000) (tt / 10000000) (pp / 10000000)
                       (rt / 10000000) (rp / 10000000) (tp / 10000000)
                       (Some time_shift) None None
      /\ h' = h.
Proof.
  intros f h h' s H. unfold from_CMTSOLUTION_file in H.
  destruct (read_CMTSOLUTION float f)
    as [[[[[latitude longitude] depth_in_m]
            [[[[[m_rr m_tt] m_pp] m_rt] m_rp] m_tp]] time_shift]|e] eqn:E;
    [|discriminate].
  rewrite Source_init_Ok in H. injection H as <- <-.
  destruct (read_CMTSOLUTION_returns _ _ _ _ _ _ _ _ _ _ _ E)
    as (depth & rr & tt & pp & rt & rp & tp & H1 & H2 & H3 & H4 & H5 & H6 & H7
        & H8 & H9 & H10 & -> & -> & -> & -> & -> & -> & ->).
  exists latitude, longitude, depth, rr, tt, pp, rt, rp, tp, time_shift.
  repeat (split; [assumption|]). split; reflexivity.
Qed.

(** X29.  [from_CMTSOLUTION_file] raises on a file of fewer than 13 lines,
    [IndexError] or [ValueError], and creates no object. *)
Theorem from_CMTSOLUTION_file_short :
  forall (f : list string) (h : heap),
    (length f < 13)%nat ->
    exists e,
      from_CMTSOLUTION_file float f h = (Fail e, h)
      /\ (e = IndexError \/ e = Builtin ValueError).
Proof.
  intros f h Hlen. unfold from_CMTSOLUTION_file.
  destruct (read_CMTSOLUTION float f)
    as [[[[[latitude longitude] depth_in_m]
            [[[[[m_rr m_tt] m_pp] m_rt] m_rp] m_tp]] time_shift]|e] eqn:E.
  - exfalso.
    destruct (read_CMTSOLUTION_returns _ _ _ _ _ _ _ _ _ _ _ E)
      as (depth & rr & tt & pp & rt & rp & tp & _ & _ & _ & _ & _ & _ & _
          & _ & _ & H10 & _).
    apply word_value_length in H10. lia.
  - exists e. split; [reflexivity|]. exact (read_CMTSOLUTION_fails f e E).
Qed.

End CMTSOLUTION.

Section CMTSOLUTION_lines.

Variable float : string -> option R.

Ltac read_words :=
  repeat match goal with
         | |- context [getitem ?ws ?i] =>
             destruct (getitem ws i); cbn [outcome_bind readline];
             [|reflexivity]
         | |- context [py_float float ?w] =>
             destruct (py_float float w); cbn [outcome_bind readline];
             [|reflexivity]
         end.

(** X30.  [from_CMTSOLUTION_file] reads the first 13 lines of the file and
    nothing of lines 1, 2 and 4: what follows line 13, and what these three
    lines say, changes neither the source returned nor the exception
    raised. *)
Theorem from_CMTSOLUTION_file_lines_read :
  (forall (f : list string) (h : heap),
      from_CMTSOLUTION_file float f h
      = from_CMTSOLUTION_file float (firstn 13 f) h)
  /\ (forall (l1 l2 l3 l4 l1' l2' l4' : string) (f : list string) (h : heap),
         from_CMTSOLUTION_file float (l1 :: l2 :: l3 :: l4 :: f) h
         = from_CMTSOLUTION_file float (l1' :: l2' :: l3 :: l4' :: f) h).
Proof.
  split.
  - intros f h. unfold from_CMTSOLUTION_file.
    replace (read_CMTSOLUTION float (firstn 13 f))
      with (read_CMTSOLUTION float f); [reflexivity|].
    destruct f as [|l1 [|l2 [|l3 [|l4 [|l5 [|l6 [|l7 [|l8 [|l9 [|l10 [|l11
                  [|l12 [|l13 f]]]]]]]]]]]]]; try reflexivity.
    cbn [firstn]. unfold read_CMTSOLUTION, read_float. cbn [readline].
    read_words. reflexivity.
  - intros. unfold from_CMTSOLUTION_file.
    replace (read_CMTSOLUTION float (l1' :: l2' :: l3 :: l4' :: f))
      with (read_CMTSOLUTION float (l1 :: l2 :: l3 :: l4 :: f)); [reflexivity|].
    unfold read_CMTSOLUTION. cbn [readline].
    change (read_float float 2 (l3 :: l4 :: f))
      with (word <~ getitem (split l3) 2 ;;
            v <~ py_float float word ;; Return (v, l4 :: f)).
    change (read_float float 2 (l3 :: l4' :: f))
      with (word <~ getitem (split l3) 2 ;;
            v <~ py_float float word ;; Return (v, l4' :: f)).
    read_words. reflexivity.
Qed.

End CMTSOLUTION_lines.

(** *** The example files *)

(** The two lines of [example_STATIONS]. *)
Lemma parse_stations_file_line_by_line_witness :
  Forall2 (line_receiver example_float)
          example_STATIONS
          [Receiver.mk (SourceOrReceiver.mk 48 11 None) "GR" "FUR";
           Receiver.mk (SourceOrReceiver.mk 12 48 None) "GR" "WET"]
  /\ length [Receiver.mk (SourceOrReceiver.mk 48 11 None) "GR" "FUR";
             Receiver.mk (SourceOrReceiver.mk 12 48 None) "GR" "WET"]
     = length example_STATIONS.
Proof.
  apply (parse_stations_file_line_by_line example_float). reflexivity.
Defined.

(** [example_STATIONS] followed by an empty line. *)
Lemma parse_stations_file_bad_line_witness :
  _parse_stations_file example_float (example_STATIONS ++ [EmptyString])
  = Fail (Builtin ValueError).
Proof.
  apply (parse_stations_file_bad_line example_float _ EmptyString).
  - apply in_or_app. right. now left.
  - simpl. discriminate.
Defined.

(** The source of [example_CMTSOLUTION]. *)
Lemma from_CMTSOLUTION_file_returns_witness :
  exists latitude longitude depth rr tt pp rt rp tp time_shift,
    word_value example_float example_CMTSOLUTION 2 2 time_shift
    /\ word_value example_float example_CMTSOLUTION 4 1 latitude
    /\ word_value example_float example_CMTSOLUTION 5 1 longitude
    /\ word_value example_float example_CMTSOLUTION 6 1 depth
    /\ word_value example_float example_CMTSOLUTION 7 1 rr
    /\ word_value example_float example_CMTSOLUTION 8 1 tt
    /\ word_value example_float example_CMTSOLUTION 9 1 pp
    /\ word_value example_float example_CMTSOLUTION 10 1 rt
    /\ word_value example_float example_CMTSOLUTION 11 1 rp
    /\ word_value example_float example_CMTSOLUTION 12 1 tp
    /\ Source.mk (SourceOrReceiver.mk 48 11 (Some (12 * 1000)))
                 (1 / 10000000) (2 / 10000000) (0 / 10000000)
                 (11 / 10000000) (12 / 10000000) (48 / 10000000)
                 (Some 1) None None
       = Source.mk (SourceOrReceiver.mk latitude longitude
                                        (Some (depth * 1000)))
                   (rr / 10000000) (tt / 10000000) (pp / 10000000)
                   (rt / 10000000) (rp / 10000000) (tp / 10000000)
                   (Some time_shift) None None
    /\ 0%nat = 0%nat.
Proof.
  apply (from_CMTSOLUTION_file_returns example_float example_CMTSOLUTION
           0%nat 0%nat).
  reflexivity.
Defined.

(** The first twelve lines of [example_CMTSOLUTION]. *)
Lemma from_CMTSOLUTION_file_short_witness :
  exists e,
    from_CMTSOLUTION_file example_float (firstn 12 example_CMTSOLUTION) 0%nat
    = (Fail e, 0%nat)
    /\ (e = IndexError \/ e = Builtin ValueError).
Proof.
  apply (from_CMTSOLUTION_file_short example_float). simpl. lia.
Defined.
